(** * Video Timestamp Finder: a shallow embedding of [main.py]

    The development follows the source file top to bottom:

    - [PyStr]     the fragment of Python's [str] and [int] that the
                  program uses ([strip], [split], [int], [str], the
                  [02d] format);
    - [Re]        a backtracking matcher for the fragment of [re] that the
                  six patterns of the program are written in;
    - [Extractor] [extract_video_id];
    - [Normalizer] [seconds_to_hhmmss] and [parse_timestamp_to_hhmmss];
    - [Handler]   the [/ask] request handler, as a state and exception
                  passing program over an explicit description of what its
                  external collaborators answer.

    Modelling conventions.  A Python [str] is a list of characters; the
    characters are the code points 0..255 ([ascii]).  On that range [\d]
    is exactly [0-9] and [str.isspace] is exactly the set used by
    [isspace] below.  A Python [int] is a [Z]; the one place where CPython
    departs from unbounded integers, the limit on the length of a decimal
    string that [int] converts, is a parameter [max_str_digits] of the
    functions that call [int].  Fallible operations return a [result]. *)

From Stdlib Require Import String Ascii ZArith Lia Bool Arith List.
From Equations Require Import Equations.
Import ListNotations.

Set Implicit Arguments.
Open Scope list_scope.

(** A Python string, and the literal [py "..."]. *)
Definition str := list ascii.
Definition py (s : string) : str := list_ascii_of_string s.

(** ** Exceptions and results *)

Inductive exn : Type :=
| HTTPException (status_code : Z) (detail : str)
| ValueError (msg : str)
| IndexError (msg : str)
| AttributeError (msg : str)
| ExternalError (msg : str).   (* any other [Exception] raised by a collaborator *)

(** [str(e)] *)
Definition exn_str (e : exn) : str :=
  match e with
  | HTTPException _ d => d
  | ValueError m | IndexError m | AttributeError m | ExternalError m => m
  end.

Inductive result (A : Type) : Type :=
| Ok (a : A)
| Raise (e : exn).
Arguments Ok {A} a.
Arguments Raise {A} e.

Definition bind {A B} (r : result A) (k : A -> result B) : result B :=
  match r with
  | Ok a => k a
  | Raise e => Raise e
  end.

Declare Scope result_scope.
Delimit Scope result_scope with result.
Notation "x <- r ;; k" := (bind r (fun x => k))
  (at level 61, r at next level, right associativity) : result_scope.

Definition returns {A} (r : result A) : bool :=
  match r with Ok _ => true | Raise _ => false end.

Definition is_some {A} (o : option A) : bool :=
  match o with Some _ => true | None => false end.

(** ** Strings and integers *)

Module PyStr.

Definition code (c : ascii) : nat := nat_of_ascii c.

(** [str.isspace] on one character: TAB..CR, FS..US, SPACE, NEL, NBSP. *)
Definition isspace (c : ascii) : bool :=
  let n := code c in
  ((9 <=? n) && (n <=? 13)) || ((28 <=? n) && (n <=? 32))
  || (n =? 133) || (n =? 160).

(** Unicode decimal digit, which is what [\d] and [int] accept. *)
Definition isdecimal (c : ascii) : bool :=
  let n := code c in (48 <=? n) && (n <=? 57).

Definition digit_val (c : ascii) : Z := Z.of_nat (code c) - 48.
Definition digit_chr (d : Z) : ascii := ascii_of_nat (Z.to_nat d + 48).

Fixpoint lstrip (s : str) : str :=
  match s with
  | c :: s' => if isspace c then lstrip s' else s
  | [] => []
  end.

Definition rstrip (s : str) : str := rev (lstrip (rev s)).

(** [s.strip()] *)
Definition strip (s : str) : str := rstrip (lstrip s).

(** [s.split(sep)] for a one-character separator. *)
Fixpoint split (sep : ascii) (s : str) : list str :=
  match s with
  | [] => [[]]
  | c :: s' =>
      if Ascii.eqb c sep then [] :: split sep s'
      else match split sep s' with
           | p :: ps => (c :: p) :: ps
           | [] => [[c]]
           end
  end.

(** [l[i]] *)
Definition index {A} (l : list A) (i : nat) : result A :=
  match nth_error l i with
  | Some a => Ok a
  | None => Raise (IndexError (py "list index out of range"))
  end.

(** [s.startswith(p)] *)
Fixpoint startswith (p s : str) : bool :=
  match p, s with
  | [], _ => true
  | a :: p', b :: s' => Ascii.eqb a b && startswith p' s'
  | _ :: _, [] => false
  end.

(** The value of a string of decimal digits, most significant first. *)
Definition int_of_digits (s : str) : Z :=
  fold_left (fun acc c => (acc * 10 + digit_val c)%Z) s 0%Z.

Definition is_digits (s : str) : bool :=
  negb (length s =? 0) && forallb isdecimal s.

(** [str(n)] for [n >= 0]: the decimal digits, produced from the least
    significant one; the recursion is bounded by the binary length. *)
Fixpoint dec_digits (fuel : nat) (n : Z) (acc : str) : str :=
  match fuel with
  | O => acc
  | S f =>
      let acc' := digit_chr (n mod 10) :: acc in
      if (n <? 10)%Z then acc' else dec_digits f (n / 10) acc'
  end.

Definition str_of_nonneg (n : Z) : str :=
  dec_digits (S (Z.to_nat (Z.log2 n))) n [].

(** [str(n)] *)
Definition str_of_int (n : Z) : str :=
  if (n <? 0)%Z then "-"%char :: str_of_nonneg (- n) else str_of_nonneg n.

Definition zfill (width : nat) (s : str) : str :=
  repeat "0"%char (width - length s) ++ s.

(** [f"{n:02d}"]: sign first, then zeros up to a total width of 2.  The
    program formats quotients and remainders of numbers that [int] has
    read, which have no more digits than the string read, so the limit
    on the way back from [int] to [str] is never reached and is left out. *)
Definition format_02d (n : Z) : str :=
  if (n <? 0)%Z then "-"%char :: zfill 1 (str_of_nonneg (- n))
  else zfill 2 (str_of_nonneg n).

(** CPython guards decimal [str] to [int] conversion: a string with more
    than 640 digits is refused when the interpreter's limit
    ([sys.get_int_max_str_digits()], 4300 unless configured, 0 for no
    limit) is positive and smaller than the number of digits. *)
Definition int_digits_threshold : nat := 640.
Definition default_max_str_digits : nat := 4300.

Definition int_guard_trips (max_str_digits digits : nat) : bool :=
  (int_digits_threshold <? digits) && (0 <? max_str_digits)
  && (max_str_digits <? digits).

Definition limit_message (max_str_digits digits : nat) : str :=
  py "Exceeds the limit (" ++ str_of_int (Z.of_nat max_str_digits)
  ++ py " digits) for integer string conversion: value has "
  ++ str_of_int (Z.of_nat digits)
  ++ py " digits; use sys.set_int_max_str_digits() to increase the limit".

(** [int(s)] on the strings the program passes to it.  Every call site
    passes a string that a [\d] pattern has matched; [int] is modelled
    on digit strings, and anything else is reported as an invalid
    literal (Python would also accept a sign, surrounding white space and
    single underscores, which never reach [int] here). *)
Definition py_int (max_str_digits : nat) (s : str) : result Z :=
  if is_digits s then
    if int_guard_trips max_str_digits (length s)
    then Raise (ValueError (limit_message max_str_digits (length s)))
    else Ok (int_of_digits s)
  else Raise (ValueError (py "invalid literal for int() with base 10")).

End PyStr.

(** ** The fragment of [re] used by the program *)

Module Re.
Import PyStr.

(** Repetition is only ever applied to a character class in the source
    ([\d{2}], [\d{1,2}], [\d+], [[a-zA-Z0-9_-]{11}]). *)
Inductive regex : Type :=
| Bol                                   (* ^ *)
| Eol                                   (* $ *)
| Lit (c : ascii)
| Rep (p : ascii -> bool) (lo : nat) (hi : option nat)
| Cat (r1 r2 : regex)
| Alt (r1 r2 : regex)
| Grp (r : regex).                      (* ( ... ) *)

(** What a successful match reports: its span and [m.groups()]. *)
Record match_obj : Type := MatchObj {
  m_start : nat;
  m_end : nat;
  m_groups : list str
}.

(** [$] without MULTILINE: at the end, or before a final newline. *)
Definition at_eol (s : str) : bool :=
  match s with
  | [] => true
  | [c] => Ascii.eqb c "010"%char
  | _ => false
  end.

Definition may_take (hi : option nat) : bool :=
  match hi with None => true | Some h => 0 <? h end.

Definition dec_hi (hi : option nat) : option nat :=
  match hi with None => None | Some h => Some (pred h) end.

Section Run.
Variable A : Type.

(** A continuation receives the position reached, the rest of the
    subject and the groups closed so far. *)
Definition cont : Type := nat -> str -> list str -> option A.

(** Greedy repetition of a class: one more character first, and only
    when the rest of the pattern fails from there, stop here. *)
Fixpoint rep (p : ascii -> bool) (lo : nat) (hi : option nat)
         (pos : nat) (s : str) (caps : list str) (k : cont)
  : option A :=
  let stop := if lo =? 0 then k pos s caps else None in
  match s with
  | c :: s' =>
      if may_take hi && p c then
        match rep p (pred lo) (dec_hi hi) (S pos) s' caps k with
        | Some x => Some x
        | None => stop
        end
      else stop
  | [] => stop
  end.

Fixpoint run (r : regex) (pos : nat) (s : str) (caps : list str)
         (k : cont) : option A :=
  match r with
  | Bol => if pos =? 0 then k pos s caps else None
  | Eol => if at_eol s then k pos s caps else None
  | Lit c =>
      match s with
      | c' :: s' => if Ascii.eqb c c' then k (S pos) s' caps else None
      | [] => None
      end
  | Rep p lo hi => rep p lo hi pos s caps k
  | Cat r1 r2 =>
      run r1 pos s caps (fun pos' s' caps' => run r2 pos' s' caps' k)
  | Alt r1 r2 =>
      match run r1 pos s caps k with
      | Some x => Some x
      | None => run r2 pos s caps k
      end
  | Grp r1 =>
      run r1 pos s caps
          (fun pos' s' caps' =>
             k pos' s' (caps' ++ [firstn (pos' - pos) s]))
  end.
End Run.

Definition accept (start : nat) : cont match_obj :=
  fun pos _ caps => Some (MatchObj start pos caps).

(** [re.match(r, s)] *)
Definition re_match (r : regex) (s : str) : option match_obj :=
  run r 0 s [] (accept 0).

(** [re.search(r, s)]: the leftmost start that matches. *)
Fixpoint search_from (r : regex) (pos : nat) (s : str)
  : option match_obj :=
  match run r pos s [] (accept pos) with
  | Some m => Some m
  | None =>
      match s with
      | [] => None
      | _ :: s' => search_from r (S pos) s'
      end
  end.

Definition re_search (r : regex) (s : str) : option match_obj :=
  search_from r 0 s.

(** [m.group(i)] for [i >= 1]. *)
Definition group (m : match_obj) (i : nat) : result str :=
  match nth_error (m_groups m) (pred i) with
  | Some g => Ok g
  | None => Raise (IndexError (py "no such group"))
  end.

Definition matched (m : option match_obj) : bool :=
  match m with Some _ => true | None => false end.

(** Pattern building blocks. *)
Fixpoint lits (s : str) : regex :=
  match s with
  | [] => Rep (fun _ => false) 0 (Some 0)
  | [c] => Lit c
  | c :: s' => Cat (Lit c) (lits s')
  end.

Fixpoint seq (rs : list regex) : regex :=
  match rs with
  | [] => Rep (fun _ => false) 0 (Some 0)
  | [r] => r
  | r :: rs' => Cat r (seq rs')
  end.

Definition digits (lo hi : nat) : regex := Rep isdecimal lo (Some hi).
Definition digits1 : regex := Rep isdecimal 1 None.      (* \d+ *)
Definition colon : regex := Lit ":"%char.

End Re.

(** ** [extract_video_id] *)

Module Extractor.
Import PyStr Re.

(** [[a-zA-Z0-9_-]] *)
Definition is_id_char (c : ascii) : bool :=
  let n := code c in
  ((97 <=? n) && (n <=? 122)) || ((65 <=? n) && (n <=? 90))
  || ((48 <=? n) && (n <=? 57)) || (n =? 95) || (n =? 45).

(** [(?:v=|youtu\.be/|embed/)] *)
Definition prefixes : list str := [py "v="; py "youtu.be/"; py "embed/"].

Definition pat_prefix : regex :=
  Alt (lits (py "v=")) (Alt (lits (py "youtu.be/")) (lits (py "embed/"))).

(** [(?:v=|youtu\.be/|embed/)([a-zA-Z0-9_-]{11})] *)
Definition pat_video_id : regex :=
  Cat pat_prefix (Grp (Rep is_id_char 11 (Some 11))).

Definition patterns : list regex := [pat_video_id].

(** The [for pattern in patterns] loop; [None] is Python's [None]. *)
Fixpoint extract_loop (ps : list regex) (url : str) : result (option str) :=
  match ps with
  | [] => Ok None
  | pattern :: ps' =>
      match re_search pattern url with
      | Some m => bind (group m 1) (fun g => Ok (Some g))
      | None => extract_loop ps' url
      end
  end.

Definition extract_video_id (url : str) : result (option str) :=
  extract_loop patterns url.

End Extractor.

(** ** [seconds_to_hhmmss] and [parse_timestamp_to_hhmmss] *)

Module Normalizer.
Import PyStr Re.
Local Open Scope result_scope.

(** [^\d{2}:\d{2}:\d{2}$] *)
Definition pat_hhmmss : regex :=
  seq [Bol; digits 2 2; colon; digits 2 2; colon; digits 2 2; Eol].

(** [^\d{1,2}:\d{2}$] *)
Definition pat_mmss : regex :=
  seq [Bol; digits 1 2; colon; digits 2 2; Eol].

(** [^\d+$] *)
Definition pat_seconds : regex := seq [Bol; digits1; Eol].

(** [(\d{1,2}):(\d{2}):(\d{2})] *)
Definition pat_find_hms : regex :=
  seq [Grp (digits 1 2); colon; Grp (digits 2 2); colon; Grp (digits 2 2)].

(** [(\d{1,2}):(\d{2})] *)
Definition pat_find_ms : regex :=
  seq [Grp (digits 1 2); colon; Grp (digits 2 2)].

(** [seconds = int(seconds)] is the identity on an [int] argument, which
    is all the program passes; [//] and [%] round to the floor, as
    [Z.div] and [Z.modulo] do for a positive divisor. *)
Definition seconds_to_hhmmss (seconds : Z) : str :=
  let h := (seconds / 3600)%Z in
  let m := ((seconds mod 3600) / 60)%Z in
  let s := (seconds mod 60)%Z in
  format_02d h ++ py ":" ++ format_02d m ++ py ":" ++ format_02d s.

Section WithRuntime.

(** [sys.get_int_max_str_digits()] of the interpreter that runs the program. *)
Variable max_str_digits : nat.

Definition int_ (s : str) : result Z := py_int max_str_digits s.

Definition parse_timestamp_to_hhmmss (ts : str) : result str :=
  let ts := strip ts in
  (* Already HH:MM:SS *)
  if matched (re_match pat_hhmmss ts) then Ok ts
  (* MM:SS format *)
  else if matched (re_match pat_mmss ts) then
    let parts := split ":"%char ts in
    p0 <- index parts 0 ;; a <- int_ p0 ;;
    p1 <- index parts 1 ;; b <- int_ p1 ;;
    Ok (py "00:" ++ format_02d a ++ py ":" ++ format_02d b)
  (* Plain seconds *)
  else if matched (re_match pat_seconds ts) then
    n <- int_ ts ;; Ok (seconds_to_hhmmss n)
  else
    (* Try to extract any HH:MM:SS pattern from string *)
    match re_search pat_find_hms ts with
    | Some m =>
        g1 <- group m 1 ;; a <- int_ g1 ;;
        g2 <- group m 2 ;; b <- int_ g2 ;;
        g3 <- group m 3 ;; c <- int_ g3 ;;
        Ok (format_02d a ++ py ":" ++ format_02d b ++ py ":" ++ format_02d c)
    | None =>
        match re_search pat_find_ms ts with
        | Some m =>
            g1 <- group m 1 ;; a <- int_ g1 ;;
            g2 <- group m 2 ;; b <- int_ g2 ;;
            Ok (py "00:" ++ format_02d a ++ py ":" ++ format_02d b)
        | None => Ok (py "00:00:00")
        end
    end.

End WithRuntime.

End Normalizer.

(** ** The normalizer and the extractor as the specification words them

    These definitions follow the text of the specification, not the
    source: shapes are tested on the characters directly and no regular
    expression is involved.  The theorems below compare them with the
    definitions embedded from the source. *)

Module Rules.
Import PyStr.
Local Open Scope result_scope.

Definition is_colon (c : ascii) : bool := Ascii.eqb ":"%char c.

(** Exactly [HH:MM:SS], each field two digits. *)
Definition exact_hhmmss (t : str) : bool :=
  match t with
  | [h1; h2; c1; m1; m2; c2; s1; s2] =>
      isdecimal h1 && isdecimal h2 && is_colon c1
      && isdecimal m1 && isdecimal m2 && is_colon c2
      && isdecimal s1 && isdecimal s2
  | _ => false
  end.

(** Exactly [M:SS] or [MM:SS]; the minutes and seconds fields. *)
Definition exact_mss (t : str) : option (str * str) :=
  match t with
  | [m1; c; s1; s2] =>
      if isdecimal m1 && is_colon c && isdecimal s1 && isdecimal s2
      then Some ([m1], [s1; s2]) else None
  | [m1; m2; c; s1; s2] =>
      if isdecimal m1 && isdecimal m2 && is_colon c
         && isdecimal s1 && isdecimal s2
      then Some ([m1; m2], [s1; s2]) else None
  | _ => None
  end.

(** A string that starts with [MM:SS], and one that starts with [M:SS]. *)
Definition ms2_here (s : str) : option (str * str) :=
  match s with
  | m1 :: m2 :: c :: s1 :: s2 :: _ =>
      if isdecimal m1 && isdecimal m2 && is_colon c
         && isdecimal s1 && isdecimal s2
      then Some ([m1; m2], [s1; s2]) else None
  | _ => None
  end.

Definition ms1_here (s : str) : option (str * str) :=
  match s with
  | m1 :: c :: s1 :: s2 :: _ =>
      if isdecimal m1 && is_colon c && isdecimal s1 && isdecimal s2
      then Some ([m1], [s1; s2]) else None
  | _ => None
  end.

Definition ms_here (s : str) : option (str * str) :=
  match ms2_here s with
  | Some x => Some x
  | None => ms1_here s
  end.

(** A string that starts with [HH:MM:SS], and one that starts with
    [H:MM:SS]. *)
Definition hms2_here (s : str) : option (str * str * str) :=
  match s with
  | h1 :: h2 :: c :: rest =>
      if isdecimal h1 && isdecimal h2 && is_colon c
      then match ms2_here rest with
           | Some (m, sec) => Some ([h1; h2], m, sec)
           | None => None
           end
      else None
  | _ => None
  end.

Definition hms1_here (s : str) : option (str * str * str) :=
  match s with
  | h1 :: c :: rest =>
      if isdecimal h1 && is_colon c
      then match ms2_here rest with
           | Some (m, sec) => Some ([h1], m, sec)
           | None => None
           end
      else None
  | _ => None
  end.

Definition hms_here (s : str) : option (str * str * str) :=
  match hms2_here s with
  | Some x => Some x
  | None => hms1_here s
  end.

(** The first place of a string, from the left, where a shape starts. *)
Fixpoint first_embedded {A} (shape : str -> option A) (s : str)
  : option A :=
  match shape s with
  | Some x => Some x
  | None =>
      match s with
      | [] => None
      | _ :: s' => first_embedded shape s'
      end
  end.

(** A field zero-padded to two characters. *)
Definition pad2 (field : str) : str := zfill 2 field.

(** A rule either does not apply or decides the output. *)
Definition rule : Type := str -> option str.

Definition rule1 : rule := fun t =>
  if exact_hhmmss t then Some t else None.

Definition rule2 : rule := fun t =>
  match exact_mss t with
  | Some (mm, ss) => Some (py "00:" ++ pad2 mm ++ py ":" ++ ss)
  | None => None
  end.

(** A string of digits is a whole-number count of seconds, whatever its
    length: [H = floor(total/3600)], [M = floor((total mod 3600)/60)],
    [S = total mod 60], each rendered zero-padded to two digits. *)
Definition rule3 : rule := fun t =>
  if is_digits t then
    let total := int_of_digits t in
    let hours := (total / 3600)%Z in
    let minutes := ((total mod 3600) / 60)%Z in
    let seconds := (total mod 60)%Z in
    Some (format_02d hours ++ py ":" ++ format_02d minutes ++ py ":"
          ++ format_02d seconds)
  else None.

Definition rule4 : rule := fun t =>
  match first_embedded hms_here t with
  | Some (h, m, s) => Some (pad2 h ++ py ":" ++ m ++ py ":" ++ s)
  | None => None
  end.

Definition rule5 : rule := fun t =>
  match first_embedded ms_here t with
  | Some (m, s) => Some (py "00:" ++ pad2 m ++ py ":" ++ s)
  | None => None
  end.

Definition rule6 : rule := fun _ => Some (py "00:00:00").

Definition rules : list rule := [rule1; rule2; rule3; rule4; rule5; rule6].

(** First matching rule wins; no rule after a match is tried. *)
Fixpoint first_match (rs : list rule) (t : str) : option str :=
  match rs with
  | [] => None
  | r :: rs' =>
      match r t with
      | Some output => Some output
      | None => first_match rs' t
      end
  end.

(** [normalize(raw)]: never fails, always returns a string. *)
Definition normalize (raw : str) : str :=
  match first_match rules (strip raw) with
  | Some output => output
  | None => py "00:00:00"
  end.

(** The digit fields that the shapes hand out. *)
Definition two_digits (f : str) : Prop :=
  exists a b, f = [a; b] /\ isdecimal a = true /\ isdecimal b = true.

Definition one_or_two_digits (f : str) : Prop :=
  (exists a, f = [a] /\ isdecimal a = true) \/ two_digits f.

(** [m.groups()] for the fields of a shape. *)
Definition groups3 (x : str * str * str) : list str :=
  let '(h, m, s) := x in [h; m; s].

Definition groups2 (x : str * str) : list str :=
  let '(m, s) := x in [m; s].

(** A string whose last character, if any, is not white space; [strip]
    returns such strings, and on them [$] means the end of the string. *)
Definition clean (t : str) : Prop := isspace (last t "x"%char) = false.

(** Reading a timestamp back: [H, M, S = map(int, out.split(":"))]. *)
Definition read_hms (max_str_digits : nat) (out : str)
  : option (Z * Z * Z) :=
  match split ":"%char out with
  | [h; m; s] =>
      match py_int max_str_digits h, py_int max_str_digits m,
            py_int max_str_digits s with
      | Ok hours, Ok minutes, Ok secs => Some (hours, minutes, secs)
      | _, _, _ => None
      end
  | _ => None
  end.

(** The canonical timestamp of the data model: digit fields separated by
    colons, hours at least two digits wide, minutes and seconds exactly
    two digits and at most 59. *)
Definition canonical_timestamp (out : str) : bool :=
  match split ":"%char out with
  | [h; m; s] =>
      is_digits h && (2 <=? length h)
      && is_digits m && (length m =? 2)
      && is_digits s && (length s =? 2)
      && (int_of_digits m <=? 59)%Z && (int_of_digits s <=? 59)%Z
  | _ => false
  end.

(** No rule but the last one applies. *)
Definition no_numeric_pattern (t : str) : Prop :=
  forall k r, k < 5 -> nth_error rules k = Some r -> r t = None.

End Rules.

(** ** The extractor as the specification words it *)

Module ExtractorRules.
Import PyStr Extractor Rules.

(** What follows the first of the given substrings that [s] starts with. *)
Fixpoint after_any (ps : list str) (s : str) : option str :=
  match ps with
  | [] => None
  | p :: ps' =>
      if startswith p s then Some (skipn (length p) s) else after_any ps' s
  end.

Definition after_prefix (s : str) : option str := after_any prefixes s.

(** The eleven identifier characters that [s] starts with. *)
Definition take_id (s : str) : option str :=
  if (11 <=? length s) && forallb is_id_char (firstn 11 s)
  then Some (firstn 11 s) else None.

(** [s] starts with a prefix that eleven identifier characters follow. *)
Definition id_here (s : str) : option str :=
  match after_prefix s with
  | Some rest => take_id rest
  | None => None
  end.

(** The leftmost place where a prefix is followed by an identifier. *)
Definition first_prefixed_id (url : str) : option str :=
  first_embedded id_here url.

(** The identifier right after the first occurrence of a prefix, if
    eleven identifier characters follow that occurrence. *)
Definition id_after_first_prefix (url : str) : option str :=
  match first_embedded after_prefix url with
  | Some rest => take_id rest
  | None => None
  end.

(** [m.groups()] of a match of the pattern. *)
Definition one_group (id : str) : list str := [id].

End ExtractorRules.

(** ** The [/ask] request handler

    The handler talks to the file system, to the downloader process and
    to the remote service.  What they answer is not in the program: it is
    collected in a [world], and the handler is a function of it.  Its
    local variables [tmp_audio] and [uploaded_file] live in the state, so
    that the [finally] block sees the values they had when the [try] block
    was left, normally or by an exception.

    The model is the [try] statement of [ask] with its [except] and
    [finally] clauses.  The two imports and the construction of the
    client, which come before it and hold no resource, are left out; so
    are exceptions that are not instances of [Exception]. *)

Module Handler.
Import PyStr Normalizer.

Record AskRequest : Type := {
  video_url : str;
  topic : str
}.

(** The remote file handle: [name], [uri] and [state.name]. *)
Record remote_file : Type := {
  file_name : str;
  file_uri : str;
  file_state : str
}.

(** What [json.loads] can return, as far as the handler looks at it. *)
Inductive jvalue : Type :=
| JString (s : str)
| JNotString.                  (* anything that has no [strip] *)

Inductive json : Type :=
| JObject (fields : list (str * jvalue))
| JNotObject.                  (* anything that has no [get] *)

(** The content of the [JSONResponse]. *)
Record response : Type := {
  resp_timestamp : str;
  resp_video_url : str;
  resp_topic : str
}.

(** The answers of the collaborators. *)
Record world : Type := {
  int_max_str_digits : nat;                     (* interpreter setting *)
  mkdtemp_result : result unit;                 (* tempfile.mkdtemp() *)
  run_result : str -> result (Z * str);         (* returncode, stderr *)
  run_files : list str;      (* names the downloader leaves in the directory,
                                in [os.listdir] order *)
  upload_result : str -> result remote_file;    (* client.files.upload *)
  get_result : nat -> str -> result remote_file;(* n-th client.files.get *)
  generate_result : str -> str -> result (option str);
                             (* uri, prompt: [response.text], maybe [None] *)
  json_loads : option str -> result json;
  remove_result : str -> result unit;           (* os.remove *)
  delete_result : str -> result unit            (* client.files.delete *)
}.

(** Calls that leave the process, in the order they were made. *)
Inductive call : Type :=
| CMkdtemp
| CRun (url : str)
| CUpload (path : str)
| CSleep (seconds : Z)
| CGet (name : str)
| CGenerate (uri : str)
| CRemove (path : str)
| CDelete (name : str).

(** A call and whether it returned normally. *)
Definition event : Type := (call * bool)%type.

Record state : Type := {
  tmp_audio : option str;           (* file name inside the directory *)
  uploaded_file : option remote_file;
  tmp_dir_exists : bool;
  dir_entries : list str;
  gets : nat;                       (* calls of client.files.get so far *)
  trace : list event
}.

Definition initial : state := {|
  tmp_audio := None;
  uploaded_file := None;
  tmp_dir_exists := false;
  dir_entries := [];
  gets := 0;
  trace := []
|}.

Definition str_eqb (a b : str) : bool :=
  if list_eq_dec ascii_dec a b then true else false.

(** State and exception passing. *)
Definition M (A : Type) : Type := state -> state * result A.

Definition ret {A} (a : A) : M A := fun st => (st, Ok a).
Definition raise {A} (e : exn) : M A := fun st => (st, Raise e).

Definition mbind {A B} (m : M A) (k : A -> M B) : M B :=
  fun st =>
    match m st with
    | (st', Ok a) => k a st'
    | (st', Raise e) => (st', Raise e)
    end.

Declare Scope io_scope.
Delimit Scope io_scope with io.
Notation "x <- m ;; k" := (mbind m (fun x => k))
  (at level 61, m at next level, right associativity) : io_scope.
Notation "m ;; k" := (mbind m (fun _ => k))
  (at level 61, right associativity) : io_scope.
Local Open Scope io_scope.

Definition lift {A} (r : result A) : M A := fun st => (st, r).

Definition log (c : call) (ok : bool) (st : state) : state :=
  {| tmp_audio := tmp_audio st; uploaded_file := uploaded_file st;
     tmp_dir_exists := tmp_dir_exists st; dir_entries := dir_entries st;
     gets := gets st; trace := trace st ++ [(c, ok)] |}.

(** A call to the outside: logged, and its answer passed on. *)
Definition external {A} (c : call) (answer : result A) : M A :=
  fun st => (log c (returns answer) st, answer).

Definition set_tmp_audio (p : str) : M unit := fun st =>
  ({| tmp_audio := Some p; uploaded_file := uploaded_file st;
      tmp_dir_exists := tmp_dir_exists st; dir_entries := dir_entries st;
      gets := gets st; trace := trace st |}, Ok tt).

Definition set_uploaded_file (f : remote_file) : M unit := fun st =>
  ({| tmp_audio := tmp_audio st; uploaded_file := Some f;
      tmp_dir_exists := tmp_dir_exists st; dir_entries := dir_entries st;
      gets := gets st; trace := trace st |}, Ok tt).

Definition set_dir (present : bool) (entries : list str) : M unit :=
  fun st =>
  ({| tmp_audio := tmp_audio st; uploaded_file := uploaded_file st;
      tmp_dir_exists := present; dir_entries := entries;
      gets := gets st; trace := trace st |}, Ok tt).

(** Reading [tmp_audio] once it has been assigned. *)
Definition get_tmp_audio : M str := fun st =>
  (st, match tmp_audio st with
       | Some p => Ok p
       | None => Raise (AttributeError (py "tmp_audio is None"))
       end).

Definition count_get : M nat := fun st =>
  ({| tmp_audio := tmp_audio st; uploaded_file := uploaded_file st;
      tmp_dir_exists := tmp_dir_exists st; dir_entries := dir_entries st;
      gets := S (gets st); trace := trace st |}, Ok (gets st)).

(** [os.path.exists] of a name inside the temporary directory. *)
Definition path_exists (p : str) : M bool := fun st =>
  (st, Ok (tmp_dir_exists st && existsb (str_eqb p) (dir_entries st))).

(** [os.listdir(tmp_dir)] *)
Definition listdir : M (list str) := fun st => (st, Ok (dir_entries st)).

(** [tmp_dir = tempfile.mkdtemp()]: a new, empty directory. *)
Definition mkdtemp (w : world) : M unit :=
  external CMkdtemp (mkdtemp_result w) ;; set_dir true [].

(** [subprocess.run(cmd, ...)]: whatever the outcome, the downloader may
    have written into the directory. *)
Definition run_downloader (w : world) (url : str) : M (Z * str) :=
  fun st =>
    let st' := fst (set_dir (tmp_dir_exists st)
                            (dir_entries st ++ run_files w) st) in
    external (CRun url) (run_result w url) st'.

(** [os.remove(p)]: the entry goes away when the call succeeds. *)
Definition os_remove (w : world) (p : str) : M unit :=
  external (CRemove p) (remove_result w p) ;;
  (fun st =>
     set_dir (tmp_dir_exists st)
             (filter (fun f => negb (str_eqb p f)) (dir_entries st)) st).

(** The [for f in os.listdir(tmp_dir)] loop with its [break]. *)
Fixpoint first_audio (entries : list str) : option str :=
  match entries with
  | [] => None
  | f :: rest =>
      if startswith (py "audio") f then Some f else first_audio rest
  end.

Definition quote : ascii := "034"%char.
Definition newline : ascii := "010"%char.

(** The f-string of step 4. *)
Definition prompt (topic_ : str) : str :=
  py "Listen to this audio carefully and find the exact moment when the following topic is spoken or discussed:"
  ++ [newline; newline] ++ py "Topic: " ++ [quote] ++ topic_ ++ [quote]
  ++ [newline; newline]
  ++ py "Return ONLY the timestamp in HH:MM:SS format (e.g., "
  ++ [quote] ++ py "00:05:47" ++ [quote]
  ++ py ") when this topic first appears." ++ [newline]
  ++ py "If not found, return " ++ [quote] ++ py "00:00:00" ++ [quote]
  ++ py ".".

Definition ACTIVE : str := py "ACTIVE".
Definition is_active (f : remote_file) : bool := str_eqb (file_state f) ACTIVE.

(** One turn of the loop body: sleep, count, fetch the handle again and
    store it in [uploaded_file]. *)
Definition refetch (w : world) (f : remote_file) : M remote_file :=
  external (CSleep 3) (Ok tt) ;;
  n <- count_get ;;
  f' <- external (CGet (file_name f)) (get_result w n (file_name f)) ;;
  set_uploaded_file f' ;;
  ret f'.

(** Step 3, the [while] loop.  [f] is the value of [uploaded_file] and
    [waited] the seconds slept so far. *)
Equations? poll (w : world) (max_wait : Z) (f : remote_file) (waited : Z)
           (st : state)
  : state * result remote_file by wf (Z.to_nat (max_wait - waited)) lt :=
  poll w max_wait f waited st with is_active f := {
    | true => (st, Ok f)
    | false with Z_lt_dec waited max_wait := {
        | right _ => (st, Ok f)
        | left Hlt with refetch w f st := {
            | (st', Ok f') => poll w max_wait f' (waited + 3) st'
            | (st', Raise e) => (st', Raise e) } } }.
Proof. lia. Qed.

(** The loop as the specification words it: at most [turns] turns of
    sleeping three seconds and fetching the handle again, left as soon as
    the handle is ready. *)
Fixpoint bounded_poll (w : world) (turns : nat) (f : remote_file)
         (st : state) : state * result remote_file :=
  if is_active f then (st, Ok f)
  else match turns with
       | O => (st, Ok f)
       | S k =>
           match refetch w f st with
           | (st', Ok f') => bounded_poll w k f' st'
           | (st', Raise e) => (st', Raise e)
           end
       end.



(** [result_data.get("timestamp", "00:00:00")] *)
Fixpoint dict_lookup (key : str) (fields : list (str * jvalue))
  : option jvalue :=
  match fields with
  | [] => None
  | (k, v) :: rest => if str_eqb k key then Some v else dict_lookup key rest
  end.

Definition get_timestamp (data : json) : result jvalue :=
  match data with
  | JObject fields =>
      match dict_lookup (py "timestamp") fields with
      | Some v => Ok v
      | None => Ok (JString (py "00:00:00"))
      end
  | _ => Raise (AttributeError (py "object has no attribute 'get'"))
  end.

(** [parse_timestamp_to_hhmmss] starts with [ts.strip()], which only a
    string has. *)
Definition parse_json (w : world) (v : jvalue) : result str :=
  match v with
  | JString s => parse_timestamp_to_hhmmss (int_max_str_digits w) s
  | _ => Raise (AttributeError (py "object has no attribute 'strip'"))
  end.

(** Step 1: Download audio using yt-dlp.  Returns the final [tmp_audio]. *)
Definition acquire (w : world) (body : AskRequest) : M str :=
  mkdtemp w ;;
  set_tmp_audio (py "audio.mp3") ;;
  res <- run_downloader w (video_url body) ;;
  let '(returncode, stderr) := res in
  (if negb (returncode =? 0)%Z
   then raise (HTTPException 400 (py "yt-dlp error: " ++ stderr))
   else ret tt) ;;
  path0 <- get_tmp_audio ;;
  here <- path_exists path0 ;;
  (if negb here then
     (* yt-dlp may add extension *)
     entries <- listdir ;;
     match first_audio entries with
     | Some f => set_tmp_audio f
     | None => ret tt
     end
   else ret tt) ;;
  path <- get_tmp_audio ;;
  here' <- path_exists path ;;
  (if negb here'
   then raise (HTTPException 500 (py "Audio file not created"))
   else ret tt) ;;
  ret path.

(** Step 2: Upload to Gemini Files API, and step 3: Poll until ACTIVE. *)
Definition upload_and_poll (w : world) (path : str) : M remote_file :=
  f <- external (CUpload path) (upload_result w path) ;;
  set_uploaded_file f ;;
  let max_wait := 120%Z in
  let waited := 0%Z in
  f' <- poll w max_wait f waited ;;
  (if negb (is_active f')
   then raise (HTTPException 500 (py "File processing timed out"))
   else ret tt) ;;
  ret f'.

(** Step 4: Ask Gemini to find timestamp using structured output. *)
Definition query (w : world) (body : AskRequest) (f : remote_file)
  : M response :=
  text <- external (CGenerate (file_uri f))
                   (generate_result w (file_uri f) (prompt (topic body))) ;;
  result_data <- lift (json_loads w text) ;;
  v <- lift (get_timestamp result_data) ;;
  timestamp <- lift (parse_json w v) ;;
  ret {| resp_timestamp := timestamp;
         resp_video_url := video_url body;
         resp_topic := topic body |}.

(** The body of the [try] block. *)
Definition try_body (w : world) (body : AskRequest) : M response :=
  path <- acquire w body ;;
  f <- upload_and_poll w path ;;
  query w body f.

(** [except HTTPException: raise] and
    [except Exception as e: raise HTTPException(status_code=500, detail=str(e))] *)
Definition except_clauses {A} (m : M A) : M A := fun st =>
  match m st with
  | (st', Ok a) => (st', Ok a)
  | (st', Raise (HTTPException code detail)) =>
      (st', Raise (HTTPException code detail))
  | (st', Raise e) => (st', Raise (HTTPException 500 (exn_str e)))
  end.

(** [try: m except: pass] *)
Definition try_pass (m : M unit) : M unit := fun st =>
  match m st with
  | (st', _) => (st', Ok tt)
  end.

(** The [finally] block. *)
Definition cleanup (w : world) : M unit :=
  (fun st =>
     match tmp_audio st with
     | Some p =>
         (here <- path_exists p ;;
          if here then try_pass (os_remove w p) else ret tt) st
     | None => (st, Ok tt)
     end) ;;
  (fun st =>
     match uploaded_file st with
     | Some f =>
         try_pass (external (CDelete (file_name f))
                            (delete_result w (file_name f))) st
     | None => (st, Ok tt)
     end).

(** [try ... finally]: the block always runs; an exception that escapes
    it replaces the outcome of the [try] part. *)
Definition try_finally {A} (m : M A) (fin : M unit) : M A := fun st =>
  match m st with
  | (st1, r) =>
      match fin st1 with
      | (st2, Ok _) => (st2, r)
      | (st2, Raise e) => (st2, Raise e)
      end
  end.

Definition ask (w : world) (body : AskRequest) : state * result response :=
  try_finally (except_clauses (try_body w body)) (cleanup w) initial.


(** Reading a trace. *)
Definition is_remove (e : event) : bool :=
  match fst e with CRemove _ => true | _ => false end.
Definition is_delete (e : event) : bool :=
  match fst e with CDelete _ => true | _ => false end.
Definition is_sleep (e : event) : bool :=
  match fst e with CSleep _ => true | _ => false end.
Definition is_get (e : event) : bool :=
  match fst e with CGet _ => true | _ => false end.
Definition is_generate (e : event) : bool :=
  match fst e with CGenerate _ => true | _ => false end.
Definition is_upload (e : event) : bool :=
  match fst e with CUpload _ => true | _ => false end.
Definition is_run (e : event) : bool :=
  match fst e with CRun _ => true | _ => false end.
Definition is_mkdtemp (e : event) : bool :=
  match fst e with CMkdtemp => true | _ => false end.
Definition is_cleanup (e : event) : bool := is_remove e || is_delete e.

Definition count (p : event -> bool) (t : list event) : nat :=
  length (filter p t).

Definition upload_succeeded (t : list event) : bool :=
  existsb (fun e => is_upload e && snd e) t.

(** The calls of the polling loop: turns of a sleep and a fetch; only the
    last fetch can have failed.  The flag tells whether every call
    returned. *)
Inductive poll_trace : list event -> bool -> Prop :=
| poll_done : poll_trace [] true
| poll_turn (name : str) (evs : list event) (b : bool) :
    poll_trace evs b ->
    poll_trace ((CSleep 3, true) :: (CGet name, true) :: evs) b
| poll_failed (name : str) :
    poll_trace [(CSleep 3, true); (CGet name, false)] false.

(** *** The exit paths of the [try] block, spelled out *)

(** The file that step 1 settles on: [audio.mp3] if the downloader left
    it, else the first entry whose name starts with [audio]. *)
Definition chosen_path (w : world) : str :=
  if existsb (str_eqb (py "audio.mp3")) (run_files w) then py "audio.mp3"
  else match first_audio (run_files w) with
       | Some f => f
       | None => py "audio.mp3"
       end.

(** The state once the downloader has run: directory made, the given
    path recorded, the given calls made after [mkdtemp]. *)
Definition downloaded (w : world) (path : str)
           (uploaded : option remote_file) (calls : list event) : state :=
  {| tmp_audio := Some path; uploaded_file := uploaded;
     tmp_dir_exists := true; dir_entries := run_files w; gets := 0;
     trace := (CMkdtemp, true) :: calls |}.

(** The state after a successful upload. *)
Definition uploaded_state (w : world) (body : AskRequest) (f : remote_file)
  : state :=
  downloaded w (chosen_path w) (Some f)
             [(CRun (video_url body), true);
              (CUpload (chosen_path w), true)].

(** What step 4 makes of the answers of the service. *)
Definition oracle_answer (w : world) (body : AskRequest) (f : remote_file)
  : result response :=
  bind (generate_result w (file_uri f) (prompt (topic body))) (fun text =>
  bind (json_loads w text) (fun result_data =>
  bind (get_timestamp result_data) (fun v =>
  bind (parse_json w v) (fun timestamp =>
  Ok {| resp_timestamp := timestamp;
        resp_video_url := video_url body;
        resp_topic := topic body |})))).

Inductive try_exit (w : world) (body : AskRequest)
  : state -> result response -> Prop :=
| exit_mkdtemp_raised (e : exn) :
    mkdtemp_result w = Raise e ->
    try_exit w body
      {| tmp_audio := None; uploaded_file := None; tmp_dir_exists := false;
         dir_entries := []; gets := 0; trace := [(CMkdtemp, false)] |}
      (Raise e)
| exit_run_raised (e : exn) :
    mkdtemp_result w = Ok tt ->
    run_result w (video_url body) = Raise e ->
    try_exit w body
      (downloaded w (py "audio.mp3") None [(CRun (video_url body), false)])
      (Raise e)
| exit_download_failed (returncode : Z) (stderr : str) :
    mkdtemp_result w = Ok tt ->
    run_result w (video_url body) = Ok (returncode, stderr) ->
    returncode <> 0%Z ->
    try_exit w body
      (downloaded w (py "audio.mp3") None [(CRun (video_url body), true)])
      (Raise (HTTPException 400 (py "yt-dlp error: " ++ stderr)))
| exit_asset_missing (stderr : str) :
    mkdtemp_result w = Ok tt ->
    run_result w (video_url body) = Ok (0%Z, stderr) ->
    existsb (str_eqb (chosen_path w)) (run_files w) = false ->
    try_exit w body
      (downloaded w (chosen_path w) None [(CRun (video_url body), true)])
      (Raise (HTTPException 500 (py "Audio file not created")))
| exit_upload_raised (stderr : str) (e : exn) :
    mkdtemp_result w = Ok tt ->
    run_result w (video_url body) = Ok (0%Z, stderr) ->
    existsb (str_eqb (chosen_path w)) (run_files w) = true ->
    upload_result w (chosen_path w) = Raise e ->
    try_exit w body
      (downloaded w (chosen_path w) None
                  [(CRun (video_url body), true);
                   (CUpload (chosen_path w), false)])
      (Raise e)
| exit_poll_raised (stderr : str) (f : remote_file) (st' : state) (e : exn) :
    mkdtemp_result w = Ok tt ->
    run_result w (video_url body) = Ok (0%Z, stderr) ->
    existsb (str_eqb (chosen_path w)) (run_files w) = true ->
    upload_result w (chosen_path w) = Ok f ->
    bounded_poll w 40 f (uploaded_state w body f) = (st', Raise e) ->
    try_exit w body st' (Raise e)
| exit_poll_timeout (stderr : str) (f f' : remote_file) (st' : state) :
    mkdtemp_result w = Ok tt ->
    run_result w (video_url body) = Ok (0%Z, stderr) ->
    existsb (str_eqb (chosen_path w)) (run_files w) = true ->
    upload_result w (chosen_path w) = Ok f ->
    bounded_poll w 40 f (uploaded_state w body f) = (st', Ok f') ->
    is_active f' = false ->
    try_exit w body st'
      (Raise (HTTPException 500 (py "File processing timed out")))
| exit_query (stderr : str) (f f' : remote_file) (st' : state) :
    mkdtemp_result w = Ok tt ->
    run_result w (video_url body) = Ok (0%Z, stderr) ->
    existsb (str_eqb (chosen_path w)) (run_files w) = true ->
    upload_result w (chosen_path w) = Ok f ->
    bounded_poll w 40 f (uploaded_state w body f) = (st', Ok f') ->
    is_active f' = true ->
    try_exit w body
      (log (CGenerate (file_uri f'))
           (returns (generate_result w (file_uri f') (prompt (topic body))))
           st')
      (oracle_answer w body f').

(** What the two [except] clauses make of an outcome. *)
Definition as_http {A} (r : result A) : result A :=
  match r with
  | Ok a => Ok a
  | Raise (HTTPException code detail) => Raise (HTTPException code detail)
  | Raise e => Raise (HTTPException 500 (exn_str e))
  end.

(** The file that the [finally] block removes, given the state in which
    the [try] block was left. *)
Definition removal (st : state) : option str :=
  match tmp_audio st with
  | Some p =>
      if tmp_dir_exists st && existsb (str_eqb p) (dir_entries st)
      then Some p else None
  | None => None
  end.

(** The calls of the [finally] block. *)
Definition cleanup_calls (w : world) (st : state) : list event :=
  match removal st with
  | Some p => [(CRemove p, returns (remove_result w p))]
  | None => []
  end
  ++ match uploaded_file st with
     | Some f => [(CDelete (file_name f),
                   returns (delete_result w (file_name f)))]
     | None => []
     end.




(** Once a call has failed, only calls of the [finally] block follow. *)
Fixpoint stops_at_first_failure (t : list event) : bool :=
  match t with
  | [] => true
  | e :: t' =>
      if snd e then stops_at_first_failure t' else forallb is_cleanup t'
  end.

(** The facts that every exit path of the [try] block shares. *)
Record try_facts (w : world) (st : state) (r : result response) : Prop := {
  no_cleanup_yet : filter is_cleanup (trace st) = [];
  uploaded_iff : is_some (uploaded_file st) = upload_succeeded (trace st);
  dir_iff : tmp_dir_exists st = returns (mkdtemp_result w);
  audio_iff : is_some (tmp_audio st) = returns (mkdtemp_result w);
  entries_are :
    dir_entries st = if returns (mkdtemp_result w) then run_files w else [];
  one_mkdtemp : count is_mkdtemp (trace st) = 1;
  one_run : count is_run (trace st) <= 1;
  one_upload : count is_upload (trace st) <= 1;
  one_generate : count is_generate (trace st) <= 1;
  sleeps :
    exists n, n <= 40
              /\ filter is_sleep (trace st) = repeat (CSleep 3, true) n
              /\ count is_get (trace st) = n;
  stops : stops_at_first_failure (trace st) = true;
  failed_raises : forallb snd (trace st) = false -> returns r = false
}.

(** *** Sample worlds *)

Definition sample_request : AskRequest :=
  {| video_url := py "https://youtu.be/dQw4w9WgXcQ"; topic := py "cats" |}.

Definition sample_file (state_name : string) : remote_file :=
  {| file_name := py "files/abc"; file_uri := py "https://remote/files/abc";
     file_state := py state_name |}.

(** The downloader adds an extension; the handle is ready at the third
    fetch; the service answers 02:15. *)
Definition happy_world : world :=
  {| int_max_str_digits := default_max_str_digits;
     mkdtemp_result := Ok tt;
     run_result := fun _ => Ok (0%Z, []);
     run_files := [py "cover.jpg"; py "audio.mp3.mp3"];
     upload_result := fun _ => Ok (sample_file "PROCESSING");
     get_result := fun n _ =>
       Ok (sample_file (if n <? 2 then "PROCESSING" else "ACTIVE"));
     generate_result := fun _ _ => Ok (Some (py "{...}"));
     json_loads := fun _ =>
       Ok (JObject [(py "timestamp", JString (py "02:15"))]);
     remove_result := fun _ => Ok tt;
     delete_result := fun _ => Ok tt |}.




End Handler.

(** ** Vocabulary for further properties *)

Module Vocabulary.
Import PyStr Rules Handler.

(** A character that is not a decimal digit. *)
Definition no_digit (c : ascii) : bool := negb (isdecimal c).

(** The last [n] characters of a string. *)
Definition last_chars (n : nat) (s : str) : str := skipn (length s - n) s.

(** The number of decimal digits in a string. *)
Definition digit_count (s : str) : nat := length (filter isdecimal s).

(** The usual ways to write the address of a video, up to its
    identifier. *)
Definition standard_bases : list str :=
  [py "https://www.youtube.com/watch?v="; py "https://youtu.be/";
   py "https://www.youtube.com/embed/"].

(** The step of the handler that a call belongs to: making the
    directory, downloading, uploading, polling, querying, and the two
    parts of the [finally] block. *)
Definition phase (c : call) : nat :=
  match c with
  | CMkdtemp => 0
  | CRun _ => 1
  | CUpload _ => 2
  | CSleep _ | CGet _ => 3
  | CGenerate _ => 4
  | CRemove _ => 5
  | CDelete _ => 6
  end.

(** The calls of a trace never go back to an earlier step; [from] is the
    step reached before the trace. *)
Fixpoint in_phase_order (from : nat) (t : list event) : bool :=
  match t with
  | [] => true
  | e :: t' =>
      (from <=? phase (fst e)) && in_phase_order (phase (fst e)) t'
  end.

Definition all_below (m : nat) (t : list event) : bool :=
  forallb (fun e => phase (fst e) <=? m) t.

End Vocabulary.

(** * Facts about the string and integer fragment *)

Module PyStrFacts.
Import PyStr.

Lemma isdecimal_range (c : ascii) :
  isdecimal c = true -> 48 <= code c <= 57.
Proof.
  unfold isdecimal. intros H.
  apply andb_true_iff in H. destruct H as [H1 H2].
  apply Nat.leb_le in H1. apply Nat.leb_le in H2. lia.
Qed.

Lemma digit_val_range (c : ascii) :
  isdecimal c = true -> (0 <= digit_val c <= 9)%Z.
Proof.
  intros H. apply isdecimal_range in H. unfold digit_val. lia.
Qed.

Lemma digit_chr_val (c : ascii) :
  isdecimal c = true -> digit_chr (digit_val c) = c.
Proof.
  intros H. apply isdecimal_range in H. unfold digit_chr, digit_val.
  replace (Z.to_nat (Z.of_nat (code c) - 48) + 48) with (code c) by lia.
  apply ascii_nat_embedding.
Qed.

Lemma code_digit_chr (d : Z) :
  (0 <= d <= 9)%Z -> code (digit_chr d) = Z.to_nat d + 48.
Proof.
  intros H. unfold code, digit_chr. apply nat_ascii_embedding. lia.
Qed.

Lemma isdecimal_digit_chr (d : Z) :
  (0 <= d <= 9)%Z -> isdecimal (digit_chr d) = true.
Proof.
  intros H. unfold isdecimal. rewrite (code_digit_chr H).
  apply andb_true_iff. split; apply Nat.leb_le; lia.
Qed.

Lemma digit_val_chr (d : Z) :
  (0 <= d <= 9)%Z -> digit_val (digit_chr d) = d.
Proof.
  intros H. unfold digit_val. rewrite (code_digit_chr H). lia.
Qed.

Lemma isdecimal_not_space (c : ascii) :
  isdecimal c = true -> isspace c = false.
Proof.
  intros H. apply isdecimal_range in H. unfold isspace.
  repeat (apply orb_false_iff; split);
    try (apply andb_false_iff; right; apply Nat.leb_gt; lia);
    apply Nat.eqb_neq; lia.
Qed.

Lemma isdecimal_not_colon (c : ascii) :
  isdecimal c = true -> Ascii.eqb c ":"%char = false.
Proof.
  intros H. apply isdecimal_range in H. apply Ascii.eqb_neq.
  intros ->. vm_compute in H. lia.
Qed.

(** *** [strip] leaves no white space at either end *)

Lemma lstrip_head (s : str) :
  match lstrip s with
  | c :: _ => isspace c = false
  | [] => True
  end.
Proof.
  induction s as [|c s IH]; simpl; [exact I|].
  destruct (isspace c) eqn:E; [exact IH | exact E].
Qed.

Lemma strip_last (s : str) (c : ascii) (t : str) :
  strip s = t ++ [c] -> isspace c = false.
Proof.
  unfold strip, rstrip. intros H.
  pose proof (lstrip_head (rev (lstrip s))) as Hh.
  apply (f_equal (@rev ascii)) in H.
  rewrite rev_involutive, rev_app_distr in H. simpl in H.
  rewrite H in Hh. exact Hh.
Qed.

Lemma lstrip_no_space (s : str) :
  match s with c :: _ => isspace c = false | [] => True end ->
  lstrip s = s.
Proof.
  destruct s as [|c s]; simpl; [reflexivity|]. intros ->. reflexivity.
Qed.

(** A string of digits is its own [strip]. *)
Lemma strip_digits (s : str) :
  forallb isdecimal s = true -> strip s = s.
Proof.
  intros H. unfold strip, rstrip.
  rewrite (lstrip_no_space s).
  - rewrite lstrip_no_space; [apply rev_involutive|].
    destruct (rev s) as [|c r] eqn:E; [exact I|].
    apply isdecimal_not_space.
    rewrite forallb_forall in H. apply H.
    apply in_rev. rewrite E. left. reflexivity.
  - destruct s as [|c s]; [exact I|]. simpl in H.
    apply andb_true_iff in H. apply isdecimal_not_space, H.
Qed.

(** *** Decimal digits of a number *)

Lemma int_of_digits_snoc (s : str) (c : ascii) :
  int_of_digits (s ++ [c]) = (int_of_digits s * 10 + digit_val c)%Z.
Proof. unfold int_of_digits. rewrite fold_left_app. reflexivity. Qed.

Lemma dec_digits_acc (fuel : nat) : forall n acc,
  dec_digits fuel n acc = dec_digits fuel n [] ++ acc.
Proof.
  induction fuel as [|f IH]; intros n acc; simpl; [reflexivity|].
  destruct (n <? 10)%Z; [reflexivity|].
  rewrite (IH _ (_ :: acc)), (IH _ [_]), <- app_assoc. reflexivity.
Qed.

Lemma dec_digits_step (f : nat) (n : Z) :
  dec_digits (S f) n [] =
  if (n <? 10)%Z then [digit_chr (n mod 10)]
  else dec_digits f (n / 10) [] ++ [digit_chr (n mod 10)].
Proof.
  simpl. destruct (n <? 10)%Z; [reflexivity|]. apply dec_digits_acc.
Qed.

Lemma dec_digits_value (fuel : nat) : forall n,
  (0 <= n < 2 ^ Z.of_nat fuel)%Z ->
  int_of_digits (dec_digits fuel n []) = n.
Proof.
  induction fuel as [|f IH]; intros n Hn.
  - simpl in Hn. assert (n = 0%Z) by lia. subst. reflexivity.
  - rewrite dec_digits_step. destruct (n <? 10)%Z eqn:E.
    + apply Z.ltb_lt in E. rewrite Z.mod_small by lia.
      unfold int_of_digits. simpl. rewrite digit_val_chr; lia.
    + apply Z.ltb_ge in E. rewrite int_of_digits_snoc, IH.
      * rewrite digit_val_chr.
        -- pose proof (Z.div_mod n 10). lia.
        -- pose proof (Z.mod_pos_bound n 10). lia.
      * rewrite Nat2Z.inj_succ, Z.pow_succ_r in Hn by lia.
        split; [apply Z.div_pos; lia|].
        apply Z.div_lt_upper_bound; lia.
Qed.

Lemma dec_digits_isdecimal (fuel : nat) : forall n,
  (0 <= n)%Z -> forallb isdecimal (dec_digits (S fuel) n []) = true.
Proof.
  assert (Hd : forall n, isdecimal (digit_chr (n mod 10)) = true).
  { intros n. apply isdecimal_digit_chr.
    pose proof (Z.mod_pos_bound n 10). lia. }
  induction fuel as [|f IH]; intros n Hn; rewrite dec_digits_step.
  - destruct (n <? 10)%Z; cbn [dec_digits app forallb];
      rewrite Hd; reflexivity.
  - destruct (n <? 10)%Z.
    + cbn [forallb]. rewrite Hd. reflexivity.
    + rewrite forallb_app, IH by (apply Z.div_pos; lia).
      cbn [forallb]. rewrite Hd. reflexivity.
Qed.

Lemma fuel_suffices (n : Z) :
  (0 <= n)%Z -> (0 <= n < 2 ^ Z.of_nat (S (Z.to_nat (Z.log2 n))))%Z.
Proof.
  intros Hn. split; [exact Hn|].
  rewrite Nat2Z.inj_succ, Z2Nat.id by apply Z.log2_nonneg.
  destruct (Z.eq_dec n 0) as [->|Hz]; [reflexivity|].
  apply Z.log2_spec. lia.
Qed.

Lemma str_of_nonneg_value (n : Z) :
  (0 <= n)%Z -> int_of_digits (str_of_nonneg n) = n.
Proof. intros Hn. apply dec_digits_value, fuel_suffices, Hn. Qed.

Lemma str_of_nonneg_isdecimal (n : Z) :
  (0 <= n)%Z -> forallb isdecimal (str_of_nonneg n) = true.
Proof. intros Hn. apply dec_digits_isdecimal, Hn. Qed.

Lemma str_of_nonneg_nonempty (n : Z) : str_of_nonneg n <> [].
Proof.
  unfold str_of_nonneg. rewrite dec_digits_step.
  destruct (n <? 10)%Z; [discriminate|].
  intros H. apply app_eq_nil in H. destruct H; discriminate.
Qed.

Lemma str_of_nonneg_is_digits (n : Z) :
  (0 <= n)%Z -> is_digits (str_of_nonneg n) = true.
Proof.
  intros Hn. unfold is_digits.
  rewrite (str_of_nonneg_isdecimal Hn), andb_true_r.
  pose proof (str_of_nonneg_nonempty n) as Hne.
  destruct (str_of_nonneg n); [contradiction|reflexivity].
Qed.

(** *** Width of the rendered numbers *)

Lemma str_of_nonneg_one (n : Z) :
  (0 <= n < 10)%Z -> str_of_nonneg n = [digit_chr n].
Proof.
  intros Hn. unfold str_of_nonneg. rewrite dec_digits_step.
  destruct (Z.ltb_spec n 10); [|lia]. rewrite Z.mod_small by lia.
  reflexivity.
Qed.

Lemma log2_fuel (n k : Z) :
  (2 ^ k <= n)%Z -> (0 <= k)%Z -> Z.to_nat k <= Z.to_nat (Z.log2 n).
Proof.
  intros H Hk. apply Z2Nat.inj_le; [lia | apply Z.log2_nonneg |].
  rewrite <- (Z.log2_pow2 k) by lia. apply Z.log2_le_mono, H.
Qed.

Lemma str_of_nonneg_two (n : Z) :
  (10 <= n < 100)%Z ->
  str_of_nonneg n = [digit_chr (n / 10); digit_chr (n mod 10)].
Proof.
  intros Hn. unfold str_of_nonneg.
  pose proof (@log2_fuel n 3) as Hf.
  destruct (Z.to_nat (Z.log2 n)) as [|k] eqn:Ek;
    [change (Z.to_nat 3) with 3 in Hf; simpl in Hf; lia|].
  rewrite dec_digits_step. destruct (Z.ltb_spec n 10); [lia|].
  rewrite dec_digits_step.
  assert (0 <= n / 10 < 10)%Z as Hq.
  { split; [apply Z.div_pos; lia | apply Z.div_lt_upper_bound; lia]. }
  destruct (Z.ltb_spec (n / 10) 10); [|lia].
  rewrite (Z.mod_small (n / 10)) by lia. reflexivity.
Qed.

Lemma dec_digits_length_pos (f : nat) (n : Z) :
  1 <= length (dec_digits (S f) n []).
Proof.
  rewrite dec_digits_step. destruct (n <? 10)%Z; [simpl; lia|].
  rewrite length_app. simpl. lia.
Qed.

Lemma str_of_nonneg_long (n : Z) :
  (100 <= n)%Z -> 3 <= length (str_of_nonneg n).
Proof.
  intros Hn. unfold str_of_nonneg.
  pose proof (@log2_fuel n 6) as Hf.
  change (Z.to_nat 6) with 6 in Hf.
  destruct (Z.to_nat (Z.log2 n)) as [|[|k]] eqn:Ek;
    [simpl in Hf; lia | simpl in Hf; lia |].
  rewrite dec_digits_step. destruct (Z.ltb_spec n 10); [lia|].
  rewrite dec_digits_step.
  assert (10 <= n / 10)%Z by (apply Z.div_le_lower_bound; lia).
  destruct (Z.ltb_spec (n / 10) 10); [lia|].
  rewrite !length_app. pose proof (dec_digits_length_pos k (n / 10 / 10)).
  cbn [length]. lia.
Qed.

Lemma int_of_digits_zeros (k : nat) (s : str) :
  int_of_digits (repeat "0"%char k ++ s) = int_of_digits s.
Proof.
  unfold int_of_digits. rewrite fold_left_app. f_equal.
  induction k as [|k IH]; [reflexivity|]. simpl. exact IH.
Qed.

Lemma forallb_isdecimal_zeros (k : nat) :
  forallb isdecimal (repeat "0"%char k) = true.
Proof. induction k as [|k IH]; [reflexivity|]. simpl. exact IH. Qed.

(** [f"{n:02d}"] of a non-negative number: digits only, the value is
    kept, and the width is 2 exactly below 100. *)
Lemma format_02d_nonneg (n : Z) :
  (0 <= n)%Z -> format_02d n = zfill 2 (str_of_nonneg n).
Proof.
  intros Hn. unfold format_02d. destruct (Z.ltb_spec n 0); [lia|].
  reflexivity.
Qed.

Lemma format_02d_isdecimal (n : Z) :
  (0 <= n)%Z -> forallb isdecimal (format_02d n) = true.
Proof.
  intros Hn. rewrite format_02d_nonneg by exact Hn. unfold zfill.
  rewrite forallb_app, forallb_isdecimal_zeros, str_of_nonneg_isdecimal;
    [reflexivity | exact Hn].
Qed.

Lemma format_02d_value (n : Z) :
  (0 <= n)%Z -> int_of_digits (format_02d n) = n.
Proof.
  intros Hn. rewrite format_02d_nonneg by exact Hn. unfold zfill.
  rewrite int_of_digits_zeros. apply str_of_nonneg_value, Hn.
Qed.

Lemma format_02d_width2 (n : Z) :
  (0 <= n < 100)%Z -> length (format_02d n) = 2.
Proof.
  intros Hn. rewrite format_02d_nonneg by lia. unfold zfill.
  destruct (Z.ltb_spec n 10).
  - rewrite str_of_nonneg_one by lia. reflexivity.
  - rewrite str_of_nonneg_two by lia. reflexivity.
Qed.

Lemma format_02d_wide (n : Z) :
  (100 <= n)%Z -> 3 <= length (format_02d n).
Proof.
  intros Hn. rewrite format_02d_nonneg by lia. unfold zfill.
  rewrite length_app. pose proof (str_of_nonneg_long Hn). lia.
Qed.

(** Reading one or two digits and formatting them back pads the field. *)
Lemma format_02d_one_digit (a : ascii) :
  isdecimal a = true -> format_02d (int_of_digits [a]) = ["0"%char; a].
Proof.
  intros Ha. pose proof (digit_val_range a Ha) as Hr.
  assert (int_of_digits [a] = digit_val a) as -> by (unfold int_of_digits; simpl; lia).
  rewrite format_02d_nonneg, str_of_nonneg_one by lia.
  rewrite digit_chr_val by exact Ha. reflexivity.
Qed.

Lemma format_02d_two_digits (a b : ascii) :
  isdecimal a = true -> isdecimal b = true ->
  format_02d (int_of_digits [a; b]) = [a; b].
Proof.
  intros Ha Hb.
  pose proof (digit_val_range a Ha) as Hra.
  pose proof (digit_val_range b Hb) as Hrb.
  assert (int_of_digits [a; b] = (digit_val a * 10 + digit_val b)%Z) as ->
    by (unfold int_of_digits; simpl; lia).
  rewrite format_02d_nonneg by lia.
  destruct (Z.eq_dec (digit_val a) 0) as [Hz|Hz].
  - rewrite Hz, str_of_nonneg_one by lia. simpl.
    rewrite digit_chr_val by exact Hb.
    rewrite <- (digit_chr_val a Ha), Hz. reflexivity.
  - rewrite str_of_nonneg_two by lia.
    assert ((digit_val a * 10 + digit_val b) / 10 = digit_val a)%Z as ->
      by (symmetry; apply (Z.div_unique _ 10 _ (digit_val b)); lia).
    assert ((digit_val a * 10 + digit_val b) mod 10 = digit_val b)%Z as ->
      by (symmetry; apply (Z.mod_unique _ 10 (digit_val a)); lia).
    rewrite !digit_chr_val by assumption. reflexivity.
Qed.

Lemma dec_digits_length_le (fuel : nat) : forall n,
  length (dec_digits fuel n []) <= fuel.
Proof.
  induction fuel as [|f IH]; intros n; [simpl; lia|].
  rewrite dec_digits_step. destruct (n <? 10)%Z; [simpl; lia|].
  rewrite length_app. specialize (IH (n / 10)%Z). cbn [length]. lia.
Qed.

Lemma str_of_nonneg_length (n : Z) (b : nat) :
  (0 <= n < 2 ^ Z.of_nat b)%Z -> length (str_of_nonneg n) <= S b.
Proof.
  intros Hn. unfold str_of_nonneg.
  etransitivity; [apply dec_digits_length_le|].
  apply le_n_S. destruct (Z.eq_dec n 0) as [->|Hz]; [simpl; lia|].
  assert (Z.log2 n < Z.of_nat b)%Z by (apply Z.log2_lt_pow2; lia).
  lia.
Qed.

Lemma fold_digits_nonneg (s : str) : forall acc,
  forallb isdecimal s = true -> (0 <= acc)%Z ->
  (0 <= fold_left (fun a c => (a * 10 + digit_val c)%Z) s acc)%Z.
Proof.
  induction s as [|c s IH]; intros acc Hs Hacc; [exact Hacc|].
  cbn [forallb] in Hs. apply andb_true_iff in Hs. destruct Hs as [Hc Hs].
  cbn [fold_left]. apply IH; [exact Hs|].
  pose proof (digit_val_range c Hc). lia.
Qed.

Lemma int_of_digits_nonneg (s : str) :
  forallb isdecimal s = true -> (0 <= int_of_digits s)%Z.
Proof. intros H. apply fold_digits_nonneg; [exact H | lia]. Qed.

(** [split] on strings of digits joined by colons. *)
Lemma split_digits (s : str) :
  forallb isdecimal s = true -> split ":"%char s = [s].
Proof.
  induction s as [|c s IH]; [reflexivity|]. cbn [forallb split].
  intros H. apply andb_true_iff in H. destruct H as [Hc Hs].
  rewrite (isdecimal_not_colon c Hc), (IH Hs). reflexivity.
Qed.

Lemma split_digits_colon (s rest : str) :
  forallb isdecimal s = true ->
  split ":"%char (s ++ ":"%char :: rest) = s :: split ":"%char rest.
Proof.
  induction s as [|c s IH]; [reflexivity|]. cbn [forallb split app].
  intros H. apply andb_true_iff in H. destruct H as [Hc Hs].
  rewrite (isdecimal_not_colon c Hc), (IH Hs). reflexivity.
Qed.

Lemma split_three_fields (h m s : str) :
  forallb isdecimal h = true -> forallb isdecimal m = true ->
  forallb isdecimal s = true ->
  split ":"%char (h ++ py ":" ++ m ++ py ":" ++ s) = [h; m; s].
Proof.
  intros Hh Hm Hs. cbn [py list_ascii_of_string app].
  rewrite (@split_digits_colon h _ Hh), (@split_digits_colon m _ Hm),
    (@split_digits s Hs).
  reflexivity.
Qed.

End PyStrFacts.

(** * What the patterns of the program match *)

Module ReFacts.
Import PyStr Re Normalizer Rules PyStrFacts.

Lemma strip_clean (s : str) : clean (strip s).
Proof.
  unfold clean. destruct (strip s) as [|c t] eqn:E using rev_ind.
  - reflexivity.
  - rewrite last_last. eapply strip_last. exact E.
Qed.

Lemma clean_tail (c : ascii) (s : str) : clean (c :: s) -> clean s.
Proof.
  unfold clean. destruct s as [|c' s]; [reflexivity|]. intros H. exact H.
Qed.

Lemma clean_not_eol (c : ascii) (s : str) :
  clean (c :: s) -> at_eol (c :: s) = false.
Proof.
  unfold clean. destruct s as [|c' s]; [|reflexivity]. simpl. intros H.
  apply Ascii.eqb_neq. intros ->. discriminate H.
Qed.

Lemma sub_succ_1 (n : nat) : S n - n = 1.
Proof. lia. Qed.

Lemma sub_succ_2 (n : nat) : S (S n) - n = 2.
Proof. lia. Qed.

Lemma rep_done (A : Type) (p : ascii -> bool) (pos : nat) (s : str)
      (caps : list str) (k : cont A) :
  rep p 0 (Some 0) pos s caps k = k pos s caps.
Proof. destruct s; reflexivity. Qed.

(** Case analysis on the conditions of a match, in the order in which the
    matcher evaluates them. *)
Ltac find_head t :=
  lazymatch t with
  | true => fail
  | false => fail
  | None => fail
  | Some _ => fail
  | (if ?b then _ else _) => find_head b
  | (match ?x with Some _ => _ | None => _ end) => find_head x
  | andb ?x _ => find_head x
  | matched ?x => find_head x
  | option_map _ ?x => find_head x
  | _ => destruct t eqn:?
  end.

Ltac norm :=
  unfold is_colon;
  cbn -[isdecimal Extractor.is_id_char Ascii.eqb Nat.sub];
  rewrite ?rep_done;
  cbn -[isdecimal Extractor.is_id_char Ascii.eqb Nat.sub];
  rewrite ?sub_succ_1, ?sub_succ_2;
  cbn -[isdecimal Extractor.is_id_char Ascii.eqb Nat.sub].

Ltac newline_absurd :=
  match goal with
  | H : Ascii.eqb ?c "010"%char = true, Hc : isspace ?c = false |- _ =>
      apply Ascii.eqb_eq in H; subst c; discriminate Hc
  end.

Ltac walk :=
  norm;
  repeat (lazymatch goal with |- ?l = _ => find_head l end; norm);
  rewrite ?andb_false_r;
  try reflexivity; try newline_absurd.

Lemma match_hhmmss (t : str) :
  clean t -> matched (re_match pat_hhmmss t) = exact_hhmmss t.
Proof.
  unfold clean, re_match, pat_hhmmss, digits, colon.
  do 10 (try destruct t as [|? t]); cbn [last]; intros Hc; walk.
Qed.

Lemma match_mmss (t : str) :
  clean t -> matched (re_match pat_mmss t) = is_some (exact_mss t).
Proof.
  unfold clean, re_match, pat_mmss, digits, colon.
  do 7 (try destruct t as [|? t]); cbn [last]; intros Hc; walk.
Qed.

(** [\d+$] on a clean string: greedy repetition takes every digit and
    no shorter attempt can reach the end. *)
Lemma rep_to_eol (s : str) : forall lo pos caps start,
  clean s ->
  matched (rep isdecimal lo None pos s caps
             (fun pos' s' caps' =>
                if at_eol s' then accept start pos' s' caps' else None))
  = forallb isdecimal s && (lo <=? length s).
Proof.
  induction s as [|c s IH]; intros lo pos caps start Hc.
  - cbn [rep at_eol forallb length andb]. destruct lo; reflexivity.
  - cbn [rep may_take andb forallb length].
    rewrite (clean_not_eol Hc).
    assert ((if lo =? 0 then @None match_obj else None) = None) as ->
      by (destruct (lo =? 0); reflexivity).
    destruct (isdecimal c); [|reflexivity].
    specialize (IH (pred lo) (S pos) caps start (clean_tail Hc)).
    cbn [dec_hi andb].
    assert ((lo <=? S (length s)) = (pred lo <=? length s)) as ->
      by (destruct lo; reflexivity).
    rewrite <- IH. destruct (rep _ _ _ _ _ _ _); reflexivity.
Qed.

Lemma match_seconds (t : str) :
  clean t -> matched (re_match pat_seconds t) = is_digits t.
Proof.
  intros Hc. unfold re_match, pat_seconds, digits1, is_digits.
  cbn [seq run Nat.eqb]. rewrite rep_to_eol by exact Hc.
  destruct t; [reflexivity|]. cbn [length Nat.eqb negb Nat.leb andb].
  apply andb_true_r.
Qed.

(** The two unanchored patterns, tried at one position. *)
Lemma find_hms_here (pos : nat) (s : str) :
  option_map m_groups (run pat_find_hms pos s [] (accept pos))
  = option_map groups3 (hms_here s).
Proof.
  unfold pat_find_hms, digits, colon, hms_here, hms2_here, hms1_here,
    ms2_here.
  do 8 (try destruct s as [|? s]); walk.
  all: try (rewrite (isdecimal_not_colon _ ltac:(eassumption)) in *;
            discriminate).
Qed.

Lemma find_ms_here (pos : nat) (s : str) :
  option_map m_groups (run pat_find_ms pos s [] (accept pos))
  = option_map groups2 (ms_here s).
Proof.
  unfold pat_find_ms, digits, colon, ms_here, ms2_here, ms1_here.
  do 5 (try destruct s as [|? s]); walk.
  all: try (rewrite (isdecimal_not_colon _ ltac:(eassumption)) in *;
            discriminate).
Qed.

(** [re.search] is the leftmost position at which the pattern matches. *)
Lemma search_first_embedded (A : Type) (r : regex) (shape : str -> option A)
      (f : A -> list str) :
  (forall pos s, option_map m_groups (run r pos s [] (accept pos))
                 = option_map f (shape s)) ->
  forall s pos, option_map m_groups (search_from r pos s)
                = option_map f (first_embedded shape s).
Proof.
  intros Hhere. induction s as [|c s IH]; intros pos;
    cbn [search_from first_embedded]; specialize (Hhere pos);
    [specialize (Hhere []) | specialize (Hhere (c :: s))];
    destruct (run r pos _ [] (accept pos)), (shape _);
    cbn [option_map] in *; solve [congruence | apply IH].
Qed.

Lemma search_hms (t : str) :
  option_map m_groups (re_search pat_find_hms t)
  = option_map groups3 (first_embedded hms_here t).
Proof. apply search_first_embedded, find_hms_here. Qed.

Lemma search_ms (t : str) :
  option_map m_groups (re_search pat_find_ms t)
  = option_map groups2 (first_embedded ms_here t).
Proof. apply search_first_embedded, find_ms_here. Qed.

End ReFacts.

(** * The timestamp normalizer *)

Module NormalizerFacts.
Import PyStr Re Normalizer Rules PyStrFacts ReFacts.
Local Open Scope result_scope.

Ltac split_andb :=
  repeat match goal with
         | H : andb _ _ = true |- _ =>
             apply andb_true_iff in H; destruct H
         end.

Ltac colon_subst :=
  repeat match goal with
         | H : Ascii.eqb ":" ?c = true |- _ =>
             apply Ascii.eqb_eq in H; subst c
         end.

Lemma exact_mss_fields (t mm ss : str) :
  exact_mss t = Some (mm, ss) ->
  one_or_two_digits mm /\ two_digits ss /\ t = mm ++ py ":" ++ ss.
Proof.
  unfold exact_mss, one_or_two_digits, two_digits, is_colon.
  do 6 (try destruct t as [|? t]); try discriminate;
    destruct (_ && _) eqn:E; try discriminate;
    intros [= <- <-]; split_andb; colon_subst.
  - split; [left; eauto|]. split; [eauto 6 | reflexivity].
  - split; [right; eauto 6|]. split; [eauto 6 | reflexivity].
Qed.

Lemma ms2_here_fields (s m sec : str) :
  ms2_here s = Some (m, sec) -> two_digits m /\ two_digits sec.
Proof.
  unfold ms2_here, two_digits.
  do 5 (try destruct s as [|? s]); try discriminate.
  destruct (_ && _) eqn:E; try discriminate. intros [= <- <-].
  split_andb.
  split; eauto 6.
Qed.

Lemma ms_here_fields (s m sec : str) :
  ms_here s = Some (m, sec) -> one_or_two_digits m /\ two_digits sec.
Proof.
  unfold ms_here. destruct (ms2_here s) as [[m' sec']|] eqn:E2.
  - intros [= <- <-]. apply ms2_here_fields in E2.
    split; [right|]; apply E2.
  - unfold ms1_here, one_or_two_digits, two_digits.
    do 4 (try destruct s as [|? s]); try discriminate.
    destruct (_ && _) eqn:E; try discriminate. intros [= <- <-].
    split_andb.
    split; [left; eauto | eauto 6].
Qed.

Lemma hms_here_fields (s h m sec : str) :
  hms_here s = Some (h, m, sec) ->
  one_or_two_digits h /\ two_digits m /\ two_digits sec.
Proof.
  unfold hms_here. destruct (hms2_here s) as [[[h' m'] sec']|] eqn:E2.
  - intros [= <- <- <-]. unfold hms2_here in E2.
    do 3 (try destruct s as [|? s]); try discriminate.
    destruct (_ && _) eqn:E; try discriminate.
    destruct (ms2_here s) as [[m0 s0]|] eqn:Em; try discriminate.
    injection E2 as <- <- <-. apply ms2_here_fields in Em.
    split_andb.
    split; [right; unfold two_digits; eauto 6 | exact Em].
  - unfold hms1_here.
    do 2 (try destruct s as [|? s]); try discriminate.
    destruct (_ && _) eqn:E; try discriminate.
    destruct (ms2_here s) as [[m0 s0]|] eqn:Em; try discriminate.
    intros [= <- <- <-]. apply ms2_here_fields in Em.
    split_andb.
    split; [left; eauto | exact Em].
Qed.

Lemma first_embedded_suffix (A : Type) (shape : str -> option A) (x : A) :
  forall s, first_embedded shape s = Some x ->
  exists pre suf, s = pre ++ suf /\ shape suf = Some x.
Proof.
  induction s as [|c s IH]; cbn [first_embedded];
    destruct (shape _) eqn:E.
  - intros [= <-]. exists [], []. auto.
  - discriminate.
  - intros [= <-]. exists [], (c :: s). auto.
  - intros H. destruct (IH H) as (pre & suf & -> & Hs).
    exists (c :: pre), suf. auto.
Qed.

Section WithRuntime.
Variable max_str_digits : nat.

(** Short fields are never refused by [int], and [02d] pads them. *)
Lemma int_two_digits (f : str) :
  two_digits f -> py_int max_str_digits f = Ok (int_of_digits f).
Proof.
  intros (a & b & -> & Ha & Hb). unfold py_int, is_digits.
  cbn [length Nat.eqb negb forallb andb]. rewrite Ha, Hb. reflexivity.
Qed.

Lemma int_one_or_two_digits (f : str) :
  one_or_two_digits f -> py_int max_str_digits f = Ok (int_of_digits f).
Proof.
  intros [(a & -> & Ha) | H]; [|apply int_two_digits, H].
  unfold py_int, is_digits.
  cbn [length Nat.eqb negb forallb andb]. rewrite Ha. reflexivity.
Qed.

Lemma format_two_digits (f : str) :
  two_digits f -> format_02d (int_of_digits f) = f.
Proof. intros (a & b & -> & Ha & Hb). apply format_02d_two_digits; auto. Qed.

Lemma format_one_or_two_digits (f : str) :
  one_or_two_digits f -> format_02d (int_of_digits f) = pad2 f.
Proof.
  intros [(a & -> & Ha) | H].
  - apply format_02d_one_digit, Ha.
  - rewrite (format_two_digits H). destruct H as (a & b & -> & _).
    reflexivity.
Qed.

Lemma split_fields (mm ss : str) :
  one_or_two_digits mm -> two_digits ss ->
  split ":"%char (mm ++ py ":" ++ ss) = [mm; ss].
Proof.
  intros Hm (c & d & -> & Hc & Hd).
  assert (forall x, isdecimal x = true -> Ascii.eqb x ":"%char = false)
    as Hn by apply isdecimal_not_colon.
  destruct Hm as [(a & -> & Ha) | (a & b & -> & Ha & Hb)];
    cbn -[Ascii.eqb]; rewrite ?(Hn a Ha), ?(Hn c Hc), ?(Hn d Hd).
  - reflexivity.
  - rewrite (Hn b Hb). reflexivity.
Qed.

Lemma colon_not_decimal (c : ascii) :
  isdecimal c = true -> is_colon c = false.
Proof.
  intros H. unfold is_colon. rewrite Ascii.eqb_sym.
  apply isdecimal_not_colon, H.
Qed.

Lemma digits_not_shapes (t : str) :
  is_digits t = true -> exact_hhmmss t = false /\ exact_mss t = None.
Proof.
  unfold is_digits. intros H. apply andb_true_iff in H.
  destruct H as [_ H].
  do 9 (try destruct t as [|? t]); cbn [forallb] in H; split_andb;
    split; try reflexivity; cbn [exact_hhmmss exact_mss];
    repeat match goal with
           | Hd : isdecimal ?c = true |- context [is_colon ?c] =>
               rewrite (colon_not_decimal c Hd)
           end;
    rewrite ?andb_false_r; reflexivity.
Qed.

(** The source function against the rules of the specification: they
    agree on every input but a string of digits, where the source reads
    the count with [int]. *)
Lemma parse_eq_normalize (raw : str) :
  parse_timestamp_to_hhmmss max_str_digits raw
  = if is_digits (strip raw)
    then n <- py_int max_str_digits (strip raw) ;; Ok (seconds_to_hhmmss n)
    else Ok (normalize raw).
Proof.
  unfold parse_timestamp_to_hhmmss, normalize, rules.
  pose proof (strip_clean raw) as Hc. set (t := strip raw) in *.
  cbn [first_match]. rewrite (match_hhmmss Hc), (match_mmss Hc),
    (match_seconds Hc).
  destruct (is_digits t) eqn:Hd.
  { destruct (digits_not_shapes _ Hd) as [-> ->]. reflexivity. }
  unfold rule1 at 1.
  destruct (exact_hhmmss t); [reflexivity|].
  unfold rule2 at 1.
  destruct (exact_mss t) as [[mm ss]|] eqn:E2; cbn [is_some].
  { destruct (exact_mss_fields _ E2) as (Hm & Hs & Ht).
    rewrite Ht, (split_fields Hm Hs). cbn [index nth_error bind].
    unfold int_. rewrite (int_one_or_two_digits Hm), (int_two_digits Hs).
    cbn [bind].
    rewrite (format_one_or_two_digits Hm), (format_two_digits Hs).
    reflexivity. }
  unfold rule3 at 1. rewrite Hd.
  unfold rule4 at 1. pose proof (search_hms t) as H4.
  destruct (re_search pat_find_hms t) as [m4|],
           (first_embedded hms_here t) as [[[h m] sec]|] eqn:E4;
    cbn [option_map groups3] in H4; try discriminate.
  { injection H4 as H4. unfold group. rewrite H4.
    destruct (first_embedded_suffix _ _ E4) as (pre & suf & _ & Hs).
    destruct (hms_here_fields _ Hs) as (Hh & Hm & Hsec).
    cbn [pred nth_error bind]. unfold int_.
    rewrite (int_one_or_two_digits Hh), (int_two_digits Hm),
      (int_two_digits Hsec).
    cbn [bind].
    rewrite (format_one_or_two_digits Hh), (format_two_digits Hm),
      (format_two_digits Hsec).
    reflexivity. }
  unfold rule5 at 1. pose proof (search_ms t) as H5.
  destruct (re_search pat_find_ms t) as [m5|],
           (first_embedded ms_here t) as [[m sec]|] eqn:E5;
    cbn [option_map groups2] in H5; try discriminate.
  { injection H5 as H5. unfold group. rewrite H5.
    destruct (first_embedded_suffix _ _ E5) as (pre & suf & _ & Hs).
    destruct (ms_here_fields _ Hs) as (Hm & Hsec).
    cbn [pred nth_error bind]. unfold int_.
    rewrite (int_one_or_two_digits Hm), (int_two_digits Hsec).
    cbn [bind].
    rewrite (format_one_or_two_digits Hm), (format_two_digits Hsec).
    reflexivity. }
  reflexivity.
Qed.

(** *** The seconds-count rule *)

Lemma parse_digits (raw : str) :
  is_digits (strip raw) = true ->
  parse_timestamp_to_hhmmss max_str_digits raw
  = (n <- py_int max_str_digits (strip raw) ;; Ok (seconds_to_hhmmss n)).
Proof.
  intros Hd. rewrite parse_eq_normalize, Hd. reflexivity.
Qed.

Lemma parse_is_normalize (raw : str) :
  is_digits (strip raw) = false ->
  parse_timestamp_to_hhmmss max_str_digits raw = Ok (normalize raw).
Proof. intros Hd. rewrite parse_eq_normalize, Hd. reflexivity. Qed.

Lemma guard_small (digits : nat) :
  digits <= 640 -> int_guard_trips max_str_digits digits = false.
Proof.
  intros H. unfold int_guard_trips, int_digits_threshold.
  destruct (Nat.ltb_spec 640 digits); [lia | reflexivity].
Qed.

Lemma py_int_digits (s : str) :
  is_digits s = true ->
  py_int max_str_digits s
  = if int_guard_trips max_str_digits (length s)
    then Raise (ValueError (limit_message max_str_digits (length s)))
    else Ok (int_of_digits s).
Proof. intros H. unfold py_int. rewrite H. reflexivity. Qed.

Lemma two_digits_format (x : Z) :
  (0 <= x < 100)%Z -> two_digits (format_02d x).
Proof.
  intros Hx. pose proof (format_02d_width2 Hx) as Hl.
  pose proof (@format_02d_isdecimal x ltac:(lia)) as Hd.
  destruct (format_02d x) as [|a [|b [|c r]]]; try discriminate.
  cbn [forallb] in Hd. split_andb. exists a, b. auto.
Qed.

Lemma two_digits_is_digits (f : str) :
  two_digits f -> is_digits f = true /\ length f = 2.
Proof.
  intros (a & b & -> & Ha & Hb). unfold is_digits.
  cbn [length Nat.eqb negb forallb andb]. rewrite Ha, Hb. auto.
Qed.

Lemma two_digits_pad2 (f : str) : one_or_two_digits f -> two_digits (pad2 f).
Proof.
  intros [(a & -> & Ha) | H].
  - exists "0"%char, a. auto.
  - destruct H as (a & b & -> & Ha & Hb). exists a, b. auto.
Qed.

Lemma two_digits_zeros : two_digits (py "00").
Proof. exists "0"%char, "0"%char. auto. Qed.

Lemma exact_hhmmss_fields (t : str) :
  exact_hhmmss t = true ->
  exists h m sec, t = h ++ py ":" ++ m ++ py ":" ++ sec
                  /\ two_digits h /\ two_digits m /\ two_digits sec.
Proof.
  unfold exact_hhmmss.
  do 9 (try destruct t as [|? t]); try discriminate.
  intros H. split_andb. unfold is_colon in *. colon_subst.
  eexists [_; _], [_; _], [_; _]. split; [reflexivity|].
  split; [|split];
    (eexists _, _; split; [reflexivity | split; assumption]).
Qed.

(** The decomposition of a seconds count. *)
Lemma hms_bounds (n : Z) :
  (0 <= n)%Z ->
  (0 <= n / 3600 /\ 0 <= (n mod 3600) / 60 < 60 /\ 0 <= n mod 60 < 60
   /\ n / 3600 * 3600 + (n mod 3600) / 60 * 60 + n mod 60 = n)%Z.
Proof.
  intros Hn.
  pose proof (Z.div_mod n 3600 ltac:(lia)) as H1.
  pose proof (Z.mod_pos_bound n 3600 ltac:(lia)) as H2.
  pose proof (Z.div_mod (n mod 3600) 60 ltac:(lia)) as H3.
  pose proof (Z.mod_pos_bound (n mod 3600) 60 ltac:(lia)) as H4.
  pose proof (Z.mod_pos_bound n 60 ltac:(lia)) as H5.
  assert ((n mod 3600) mod 60 = n mod 60)%Z as H6.
  { apply Z.mod_mod_divide. exists 60%Z. reflexivity. }
  assert (0 <= n / 3600)%Z by (apply Z.div_pos; lia).
  assert (0 <= (n mod 3600) / 60)%Z by (apply Z.div_pos; lia).
  assert ((n mod 3600) / 60 < 60)%Z by (apply Z.div_lt_upper_bound; lia).
  lia.
Qed.

(** What [seconds_to_hhmmss] prints for a count that is not negative. *)
Lemma seconds_to_hhmmss_fields (n : Z) :
  (0 <= n)%Z ->
  exists h m sec,
    seconds_to_hhmmss n = h ++ py ":" ++ m ++ py ":" ++ sec
    /\ is_digits h = true /\ 2 <= length h
    /\ (2 < length h <-> (360000 <= n)%Z)
    /\ int_of_digits h = (n / 3600)%Z
    /\ two_digits m /\ int_of_digits m = ((n mod 3600) / 60)%Z
    /\ two_digits sec /\ int_of_digits sec = (n mod 60)%Z.
Proof.
  intros Hn. destruct (hms_bounds Hn) as (HH & HM & HS & _).
  exists (format_02d (n / 3600)), (format_02d ((n mod 3600) / 60)),
    (format_02d (n mod 60)).
  split; [reflexivity|].
  assert (2 <= length (format_02d (n / 3600))
          /\ (2 < length (format_02d (n / 3600)) <-> (360000 <= n)%Z))
    as [Hlen Hwide].
  { destruct (Z_lt_le_dec (n / 3600) 100) as [Hlt|Hge].
    - rewrite format_02d_width2 by lia. split; [lia|]. split; [lia|].
      intros Hbig. exfalso.
      assert (100 <= n / 3600)%Z by (apply Z.div_le_lower_bound; lia). lia.
    - pose proof (format_02d_wide Hge). split; [lia|]. split; [|lia].
      intros _. destruct (Z_lt_le_dec n 360000) as [Hs|Hs]; [|exact Hs].
      exfalso.
      assert (n / 3600 < 100)%Z by (apply Z.div_lt_upper_bound; lia). lia. }
  split.
  { unfold is_digits. rewrite format_02d_isdecimal by exact HH.
    destruct (format_02d (n / 3600)); [simpl in Hlen; lia | reflexivity]. }
  split; [exact Hlen|]. split; [exact Hwide|].
  split; [apply format_02d_value, HH|].
  split; [apply two_digits_format; lia|].
  split; [apply format_02d_value; lia|].
  split; [apply two_digits_format; lia | apply format_02d_value; lia].
Qed.

(** The outcome on a digit string: refused by [int], or converted. *)
Lemma parse_digits_outcome (raw : str) :
  is_digits (strip raw) = true ->
  parse_timestamp_to_hhmmss max_str_digits raw
  = if int_guard_trips max_str_digits (length (strip raw))
    then Raise (ValueError
                  (limit_message max_str_digits (length (strip raw))))
    else Ok (seconds_to_hhmmss (int_of_digits (strip raw))).
Proof.
  intros Hd. rewrite (parse_digits _ Hd), (py_int_digits _ Hd).
  destruct (int_guard_trips _ _); reflexivity.
Qed.

(** Outside the seconds-count rule the normalizer returns three fields of
    exactly two digits. *)
Lemma parse_non_digits (raw : str) :
  is_digits (strip raw) = false ->
  exists h m sec,
    parse_timestamp_to_hhmmss max_str_digits raw
    = Ok (h ++ py ":" ++ m ++ py ":" ++ sec)
    /\ two_digits h /\ two_digits m /\ two_digits sec.
Proof.
  intros Hd. rewrite (parse_is_normalize _ Hd). unfold normalize, rules.
  cbn [first_match]. unfold rule1 at 1.
  destruct (exact_hhmmss (strip raw)) eqn:E1.
  { destruct (exact_hhmmss_fields _ E1) as (h & m & sec & -> & H).
    exists h, m, sec. auto. }
  unfold rule2 at 1.
  destruct (exact_mss (strip raw)) as [[mm ss]|] eqn:E2.
  { destruct (exact_mss_fields _ E2) as (Hm & Hs & _).
    exists (py "00"), (pad2 mm), ss.
    auto using two_digits_zeros, two_digits_pad2. }
  unfold rule3 at 1. rewrite Hd. unfold rule4 at 1.
  destruct (first_embedded hms_here (strip raw)) as [[[h m] sec]|] eqn:E4.
  { destruct (first_embedded_suffix _ _ E4) as (pre & suf & _ & Hs).
    destruct (hms_here_fields _ Hs) as (Hh & Hm & Hsec).
    exists (pad2 h), m, sec. auto using two_digits_pad2. }
  unfold rule5 at 1.
  destruct (first_embedded ms_here (strip raw)) as [[m sec]|] eqn:E5.
  { destruct (first_embedded_suffix _ _ E5) as (pre & suf & _ & Hs).
    destruct (ms_here_fields _ Hs) as (Hm & Hsec).
    exists (py "00"), (pad2 m), sec.
    auto using two_digits_zeros, two_digits_pad2. }
  exists (py "00"), (py "00"), (py "00"). auto using two_digits_zeros.
Qed.

Lemma is_digits_forallb (s : str) :
  is_digits s = true -> forallb isdecimal s = true.
Proof. unfold is_digits. intros H. apply andb_true_iff in H. apply H. Qed.

(** C3, as amended.  Whenever the normalizer returns, the output is three
    digit fields joined by colons; minutes and seconds are exactly two
    digits; hours are at least two digits, and wider only when the
    stripped input is a seconds count of at least 360000; minutes and
    seconds are at most 59 when the stripped input is a seconds count. *)
Theorem output_is_three_fields (raw out : str) :
  parse_timestamp_to_hhmmss max_str_digits raw = Ok out ->
  exists h m sec,
    out = h ++ py ":" ++ m ++ py ":" ++ sec
    /\ is_digits h = true /\ 2 <= length h
    /\ two_digits m /\ two_digits sec
    /\ (2 < length h ->
        is_digits (strip raw) = true
        /\ (360000 <= int_of_digits (strip raw))%Z)
    /\ (is_digits (strip raw) = true ->
        (int_of_digits m <= 59 /\ int_of_digits sec <= 59)%Z).
Proof.
  intros Hout. destruct (is_digits (strip raw)) eqn:Hd.
  - rewrite (parse_digits_outcome _ Hd) in Hout.
    destruct (int_guard_trips _ _); [discriminate|].
    injection Hout as <-.
    pose proof (int_of_digits_nonneg _ (is_digits_forallb _ Hd)) as Hn.
    destruct (seconds_to_hhmmss_fields Hn)
      as (h & m & sec & -> & Hh & Hl & Hw & _ & Hm & Hmv & Hs & Hsv).
    destruct (hms_bounds Hn) as (_ & HM & HS & _).
    exists h, m, sec. repeat split; try assumption; try lia.
  - destruct (parse_non_digits _ Hd)
      as (h & m & sec & Hp & Hh & Hm & Hs).
    rewrite Hp in Hout. injection Hout as <-.
    destruct (two_digits_is_digits Hh) as [Hhd Hhl].
    exists h, m, sec. repeat split; try assumption; try lia;
      discriminate.
Qed.

End WithRuntime.

(** Whatever [first_match] returns was returned by one rule of the list,
    and every rule before that one did not apply. *)
Lemma first_match_decides (rs : list rule) (t : str) (o : str) :
  first_match rs t = Some o ->
  exists k r, nth_error rs k = Some r /\ r t = Some o
              /\ forall j r', j < k -> nth_error rs j = Some r' ->
                              r' t = None.
Proof.
  induction rs as [|r rs IH]; cbn [first_match]; [discriminate|].
  destruct (r t) as [o'|] eqn:E.
  - intros [= <-]. exists 0, r. split; [reflexivity|].
    split; [exact E|]. intros j r' Hj. lia.
  - intros H. destruct (IH H) as (k & r0 & Hk & Hr & Hbefore).
    exists (S k), r0. split; [exact Hk|]. split; [exact Hr|].
    intros [|j] r' Hj Hn; cbn [nth_error] in Hn.
    + injection Hn as <-. exact E.
    + apply (Hbefore j); [lia | exact Hn].
Qed.

Lemma non_digits_returns (max_str_digits : nat) (raw : str) :
  is_digits (strip raw) = false ->
  returns (parse_timestamp_to_hhmmss max_str_digits raw) = true.
Proof.
  intros Hd.
  destruct (parse_non_digits max_str_digits _ Hd) as (h & m & sec & -> & _).
  reflexivity.
Qed.


(** A string of 4301 digits under the default limit of the interpreter:
    [int] refuses it and the source function raises, where rule 3 of the
    specification converts the count. *)
Lemma long_digit_string_raises :
  parse_timestamp_to_hhmmss default_max_str_digits (repeat "1"%char 4301)
  = Raise (ValueError (limit_message 4300 4301)).
Proof. vm_compute. reflexivity. Qed.

(** On a string of digits the rules of the specification stop at the
    third. *)
Lemma normalize_digits (raw : str) :
  is_digits (strip raw) = true ->
  rule3 (strip raw) = Some (normalize raw)
  /\ normalize raw = seconds_to_hhmmss (int_of_digits (strip raw)).
Proof.
  intros Hd. unfold normalize, rules. cbn [first_match].
  unfold rule1, rule2, rule3.
  destruct (digits_not_shapes _ Hd) as [-> ->].
  rewrite Hd. split; reflexivity.
Qed.

Lemma long_digit_string_is_count :
  rule3 (strip (repeat "1"%char 4301))
  = Some (normalize (repeat "1"%char 4301)).
Proof.
  apply normalize_digits. vm_compute. reflexivity.
Qed.

(** C4, a defect of the code.  The normalizer of the specification never
    fails, and the source function fails on one kind of input: a string
    of 4301 digits makes it raise under the default limit of the
    interpreter, because [int] refuses the string; it raises exactly when
    the stripped input is a string of digits longer than that limit, and
    then with the [ValueError] of [int]; on every other input it returns,
    and it returns 00:00:00 when none of the first five rules applies. *)
Theorem int_limit_breaks_totality :
  returns (parse_timestamp_to_hhmmss default_max_str_digits
             (repeat "1"%char 4301)) = false
  /\ (forall max_str_digits raw,
        returns (parse_timestamp_to_hhmmss max_str_digits raw) = false
        <-> is_digits (strip raw) = true
            /\ int_guard_trips max_str_digits (length (strip raw)) = true)
  /\ (forall max_str_digits raw e,
        parse_timestamp_to_hhmmss max_str_digits raw = Raise e ->
        e = ValueError (limit_message max_str_digits (length (strip raw))))
  /\ (forall max_str_digits raw,
        no_numeric_pattern (strip raw) ->
        parse_timestamp_to_hhmmss max_str_digits raw = Ok (py "00:00:00")).
Proof.
  split; [rewrite long_digit_string_raises; reflexivity|].
  split; [|split].
  - intros lim raw. destruct (is_digits (strip raw)) eqn:Hd.
    + rewrite (parse_digits_outcome _ _ Hd).
      destruct (int_guard_trips _ _); cbn [returns]; intuition congruence.
    + rewrite (non_digits_returns _ _ Hd). intuition congruence.
  - intros lim raw e He. destruct (is_digits (strip raw)) eqn:Hd.
    + rewrite (parse_digits_outcome _ _ Hd) in He.
      destruct (int_guard_trips _ _); congruence.
    + pose proof (non_digits_returns lim _ Hd) as Hr.
      rewrite He in Hr. discriminate.
  - intros lim raw Hno.
    assert (is_digits (strip raw) = false) as Hd.
    { pose proof (Hno 2 rule3 ltac:(lia) eq_refl) as H3.
      unfold rule3 in H3. destruct (is_digits (strip raw));
        [discriminate | reflexivity]. }
    rewrite (parse_is_normalize lim _ Hd). unfold normalize, rules.
    cbn [first_match].
    rewrite (Hno 0 rule1), (Hno 1 rule2), (Hno 2 rule3),
      (Hno 3 rule4), (Hno 4 rule5) by (reflexivity || lia).
    reflexivity.
Qed.

(** C5.  Every count of seconds below one day, written in decimal, is
    normalized to a timestamp whose three fields read back as integers
    H, M and S with H*3600 + M*60 + S equal to the count. *)
Theorem seconds_count_round_trips (max_str_digits : nat) (n : Z) :
  (0 <= n < 86400)%Z ->
  exists out hh mm ss,
    parse_timestamp_to_hhmmss max_str_digits (str_of_int n) = Ok out
    /\ read_hms max_str_digits out = Some (hh, mm, ss)
    /\ (hh * 3600 + mm * 60 + ss = n)%Z.
Proof.
  intros Hn. unfold str_of_int. destruct (Z.ltb_spec n 0); [lia|].
  assert (0 <= n)%Z as Hn0 by lia.
  pose proof (str_of_nonneg_is_digits Hn0) as Hd.
  pose proof (str_of_nonneg_isdecimal Hn0) as Hf.
  pose proof (@str_of_nonneg_length n 17 ltac:(simpl; lia)) as Hl.
  assert (strip (str_of_nonneg n) = str_of_nonneg n) as Hs
    by (apply strip_digits, Hf).
  exists (seconds_to_hhmmss n), (n / 3600)%Z, ((n mod 3600) / 60)%Z,
    (n mod 60)%Z.
  destruct (hms_bounds Hn0) as (HH & HM & HS & Hsum).
  split; [|split; [|exact Hsum]].
  - rewrite parse_digits_outcome by (rewrite Hs; exact Hd).
    rewrite Hs, guard_small by lia.
    rewrite str_of_nonneg_value by exact Hn0. reflexivity.
  - assert (n / 3600 < 100)%Z by (apply Z.div_lt_upper_bound; lia).
    unfold read_hms, seconds_to_hhmmss.
    rewrite split_three_fields by (apply format_02d_isdecimal; lia).
    rewrite !int_two_digits by (apply two_digits_format; lia).
    rewrite !format_02d_value by lia. reflexivity.
Qed.

(** C8.  Hours are not clamped.  For a string of digits whose value is
    at least 360000, whatever the normalizer returns has an hours field
    more than two characters wide that holds the whole quotient by 3600,
    and minutes and seconds fields of exactly two digits. *)
Theorem hours_are_not_clamped (max_str_digits : nat) (s out : str) :
  is_digits s = true ->
  (360000 <= int_of_digits s)%Z ->
  parse_timestamp_to_hhmmss max_str_digits s = Ok out ->
  exists h m sec,
    out = h ++ py ":" ++ m ++ py ":" ++ sec
    /\ is_digits h = true /\ 2 < length h
    /\ int_of_digits h = (int_of_digits s / 3600)%Z
    /\ two_digits m /\ two_digits sec.
Proof.
  intros Hd Hbig Hout.
  assert (strip s = s) as Hs by (apply strip_digits, is_digits_forallb, Hd).
  rewrite parse_digits_outcome in Hout by (rewrite Hs; exact Hd).
  rewrite Hs in Hout. destruct (int_guard_trips _ _); [discriminate|].
  injection Hout as <-.
  destruct (@seconds_to_hhmmss_fields (int_of_digits s) ltac:(lia))
    as (h & m & sec & -> & Hh & _ & Hw & Hv & Hm & _ & Hsec & _).
  exists h, m, sec. repeat split; try assumption. apply Hw, Hbig.
Qed.

(** C1, a defect of the code.  The six ordered rules of the
    specification decide every input: [Rules.normalize] returns what the
    first rule that applies returns, and no rule before it applies.  The
    source function returns the same output on every input on which
    [int] accepts the seconds count, the embedded example included; on a
    string of 4301 digits, which rule 3 converts, it raises under the
    default limit of the interpreter. *)
Theorem parse_timestamp_six_ordered_rules :
  (forall max_str_digits raw,
      is_digits (strip raw) = false
      \/ int_guard_trips max_str_digits (length (strip raw)) = false ->
      parse_timestamp_to_hhmmss max_str_digits raw = Ok (normalize raw))
  /\ (forall raw,
         exists k r,
           nth_error rules k = Some r
           /\ r (strip raw) = Some (normalize raw)
           /\ forall j r', j < k -> nth_error rules j = Some r' ->
                           r' (strip raw) = None)
  /\ (forall max_str_digits,
         parse_timestamp_to_hhmmss max_str_digits
           (py "topic discussed at 1:02:03 in the clip")
         = Ok (py "01:02:03"))
  /\ (rule3 (strip (repeat "1"%char 4301))
      = Some (normalize (repeat "1"%char 4301))
      /\ parse_timestamp_to_hhmmss default_max_str_digits
           (repeat "1"%char 4301)
         = Raise (ValueError (limit_message 4300 4301))).
Proof.
  split; [|split; [|split]].
  - intros lim raw H. destruct (is_digits (strip raw)) eqn:Hd.
    + destruct H as [H|H]; [discriminate|].
      rewrite (parse_digits_outcome _ _ Hd), H.
      destruct (normalize_digits _ Hd) as [_ ->]. reflexivity.
    + apply parse_is_normalize, Hd.
  - intros raw. unfold normalize.
    destruct (first_match rules (strip raw)) as [o|] eqn:E.
    + apply first_match_decides, E.
    + exfalso. unfold rules in E. cbn [first_match] in E.
      unfold rule6 in E.
      repeat match type of E with
             | match ?x with Some _ => _ | None => _ end = None =>
                 destruct x; [discriminate|]
             end.
      discriminate.
  - intros lim. vm_compute. reflexivity.
  - split; [exact long_digit_string_is_count
           | exact long_digit_string_raises].
Qed.

Lemma parse_timestamp_six_ordered_rules_witness :
  parse_timestamp_to_hhmmss default_max_str_digits (py "  5:47 ")
  = Ok (normalize (py "  5:47 ")).
Proof.
  apply (proj1 parse_timestamp_six_ordered_rules default_max_str_digits
           (py "  5:47 ")).
  left. reflexivity.
Defined.

(** C3 as stated fails: a timestamp already in HH:MM:SS form is returned
    as it is, with minutes and seconds above 59. *)
Lemma canonical_range_counterexample :
  parse_timestamp_to_hhmmss default_max_str_digits (py "00:99:99")
  = Ok (py "00:99:99")
  /\ canonical_timestamp (py "00:99:99") = false.
Proof. split; vm_compute; reflexivity. Qed.

Lemma output_is_three_fields_witness :
  exists h m sec,
    py "00:05:47" = h ++ py ":" ++ m ++ py ":" ++ sec
    /\ is_digits h = true /\ 2 <= length h
    /\ two_digits m /\ two_digits sec
    /\ (2 < length h ->
        is_digits (strip (py "347")) = true
        /\ (360000 <= int_of_digits (strip (py "347")))%Z)
    /\ (is_digits (strip (py "347")) = true ->
        (int_of_digits m <= 59 /\ int_of_digits sec <= 59)%Z).
Proof.
  apply (@output_is_three_fields default_max_str_digits (py "347")).
  vm_compute. reflexivity.
Defined.

Lemma int_limit_breaks_totality_witness :
  parse_timestamp_to_hhmmss default_max_str_digits (py "no timestamps here")
  = Ok (py "00:00:00").
Proof.
  apply (proj2 (proj2 (proj2 int_limit_breaks_totality))
           default_max_str_digits (py "no timestamps here")).
  intros k r Hk Hr.
  do 5 (destruct k as [|k]; [injection Hr as <-; vm_compute; reflexivity|]).
  lia.
Defined.

Lemma seconds_count_round_trips_witness :
  (0 <= 347 < 86400)%Z
  /\ exists out hh mm ss,
      parse_timestamp_to_hhmmss default_max_str_digits (str_of_int 347)
      = Ok out
      /\ read_hms default_max_str_digits out = Some (hh, mm, ss)
      /\ (hh * 3600 + mm * 60 + ss = 347)%Z.
Proof.
  split; [lia|]. apply seconds_count_round_trips. lia.
Defined.

Lemma hours_are_not_clamped_witness :
  exists h m sec,
    py "100:00:00" = h ++ py ":" ++ m ++ py ":" ++ sec
    /\ is_digits h = true /\ 2 < length h
    /\ int_of_digits h = (int_of_digits (py "360000") / 3600)%Z
    /\ two_digits m /\ two_digits sec.
Proof.
  apply (@hours_are_not_clamped default_max_str_digits (py "360000")).
  - reflexivity.
  - vm_compute. discriminate.
  - vm_compute. reflexivity.
Defined.

End NormalizerFacts.

(** * The video identifier extractor *)

Module ExtractorFacts.
Import PyStr Re Extractor Rules ExtractorRules PyStrFacts ReFacts.

Lemma rep_exact (A : Type) (p : ascii -> bool) (n : nat) :
  forall pos s caps (k : cont A),
    rep p n (Some n) pos s caps k =
    if (n <=? length s) && forallb p (firstn n s)
    then k (n + pos) (skipn n s) caps else None.
Proof.
  induction n as [|n IH]; intros pos s caps k.
  - rewrite rep_done. reflexivity.
  - destruct s as [|c s]; [reflexivity|].
    cbn [rep may_take dec_hi pred Nat.eqb Nat.ltb Nat.leb length firstn
         forallb skipn andb].
    destruct (p c); cbn [andb]; [|rewrite andb_false_r; reflexivity].
    rewrite IH. replace (n + S pos) with (S n + pos) by lia.
    destruct (_ && _); [|reflexivity]. destruct (k _ _ _); reflexivity.
Qed.

Lemma run_lits (A : Type) (p : str) :
  forall pos s caps (k : cont A),
    run (lits p) pos s caps k =
    if startswith p s then k (length p + pos) (skipn (length p) s) caps
    else None.
Proof.
  induction p as [|c p IH]; intros pos s caps k.
  - cbn [lits run]. rewrite rep_done. reflexivity.
  - assert (run (Cat (Lit c) (lits p)) pos s caps k =
            if startswith (c :: p) s
            then k (length (c :: p) + pos) (skipn (length (c :: p)) s) caps
            else None) as Hcat.
    { cbn [run startswith]. destruct s as [|c' s]; [reflexivity|].
      destruct (Ascii.eqb c c'); [|reflexivity]. rewrite IH.
      cbn [andb length skipn].
      replace (length p + S pos) with (S (length p) + pos) by lia.
      reflexivity. }
    destruct p as [|c2 p]; [|exact Hcat].
    cbn [lits run startswith length skipn]. destruct s as [|c' s];
      [reflexivity|].
    rewrite andb_true_r. reflexivity.
Qed.

(** The three prefixes start with different characters, so at most one
    of them starts a given string. *)
Lemma prefixes_exclusive (s : str) :
  (startswith (py "v=") s = true ->
   startswith (py "youtu.be/") s = false
   /\ startswith (py "embed/") s = false)
  /\ (startswith (py "youtu.be/") s = true ->
      startswith (py "embed/") s = false).
Proof.
  destruct s as [|c s]; [split; discriminate|].
  cbn [py list_ascii_of_string startswith].
  split; intros H; apply andb_true_iff in H; destruct H as [H _];
    apply Ascii.eqb_eq in H; subst c; auto.
Qed.

Lemma find_id_here (pos : nat) (s : str) :
  option_map m_groups (run pat_video_id pos s [] (accept pos))
  = option_map one_group (id_here s).
Proof.
  unfold pat_video_id, pat_prefix, id_here, after_prefix, prefixes, take_id.
  cbn [run after_any]. rewrite !run_lits.
  destruct (prefixes_exclusive s) as [Hv Hy].
  assert (forall (pos' : nat) (s' : str),
             option_map m_groups
               (rep is_id_char 11 (Some 11) pos' s' []
                  (fun pos'' s'' caps'' =>
                     accept pos pos'' s''
                            (caps'' ++ [firstn (pos'' - pos') s'])))
             = option_map one_group
                 (if (11 <=? length s') && forallb is_id_char (firstn 11 s')
                  then Some (firstn 11 s') else None)) as Hid.
  { intros pos' s'. rewrite rep_exact.
    destruct (_ && _); [|reflexivity]. cbn [accept option_map m_groups app].
    replace (11 + pos' - pos') with 11 by lia. reflexivity. }
  destruct (startswith (py "v=") s).
  - destruct (Hv eq_refl) as [-> ->]. specialize (Hid (length (py "v=") + pos)
                                                    (skipn (length (py "v=")) s)).
    destruct (rep _ _ _ _ _ _ _); [exact Hid|].
    rewrite <- Hid. reflexivity.
  - destruct (startswith (py "youtu.be/") s).
    + rewrite (Hy eq_refl).
      specialize (Hid (length (py "youtu.be/") + pos)
                      (skipn (length (py "youtu.be/")) s)).
      destruct (rep _ _ _ _ _ _ _); [exact Hid|].
      rewrite <- Hid. reflexivity.
    + destruct (startswith (py "embed/") s); [|reflexivity].
      apply Hid.
Qed.

Lemma search_id (url : str) :
  option_map m_groups (re_search pat_video_id url)
  = option_map one_group (first_prefixed_id url).
Proof. apply search_first_embedded, find_id_here. Qed.

Lemma extract_is_first_prefixed_id (url : str) :
  extract_video_id url = Ok (first_prefixed_id url).
Proof.
  unfold extract_video_id, patterns. cbn [extract_loop].
  pose proof (search_id url) as H.
  destruct (re_search pat_video_id url) as [m|],
           (first_prefixed_id url) as [id|];
    cbn [option_map] in H; try discriminate; [|reflexivity].
  injection H as H. unfold group. rewrite H. reflexivity.
Qed.

(** [first_embedded] in words: the shape holds at a suffix and at no
    suffix that starts further left. *)
Lemma first_embedded_leftmost (A : Type) (shape : str -> option A) (x : A) :
  forall s, first_embedded shape s = Some x ->
  exists pre suf,
    s = pre ++ suf /\ shape suf = Some x
    /\ forall pre' suf', s = pre' ++ suf' -> length pre' < length pre ->
                         shape suf' = None.
Proof.
  induction s as [|c s IH]; cbn [first_embedded];
    destruct (shape _) eqn:E.
  - intros [= <-]. exists [], []. repeat split; auto.
    intros pre' suf' _ Hl. simpl in Hl. lia.
  - discriminate.
  - intros [= <-]. exists [], (c :: s). repeat split; auto.
    intros pre' suf' _ Hl. simpl in Hl. lia.
  - intros H. destruct (IH H) as (pre & suf & -> & Hs & Hleft).
    exists (c :: pre), suf. repeat split; auto.
    intros [|c' pre'] suf' Heq Hl.
    + simpl in Heq. subst suf'. exact E.
    + simpl in Heq. injection Heq as -> Heq. apply (Hleft pre' suf' Heq).
      simpl in Hl. lia.
Qed.

Lemma first_embedded_nowhere (A : Type) (shape : str -> option A) :
  forall s, first_embedded shape s = None ->
  forall pre suf, s = pre ++ suf -> shape suf = None.
Proof.
  induction s as [|c s IH]; cbn [first_embedded];
    destruct (shape _) eqn:E; try discriminate; intros H pre suf Heq.
  - symmetry in Heq. apply app_eq_nil in Heq. destruct Heq as [_ ->].
    exact E.
  - destruct pre as [|c' pre]; simpl in Heq.
    + subst suf. exact E.
    + injection Heq as -> Heq. apply (IH H pre suf Heq).
Qed.

Lemma startswith_app (p s : str) :
  startswith p s = true -> s = p ++ skipn (length p) s.
Proof.
  revert s. induction p as [|a p IH]; intros s; [reflexivity|].
  destruct s as [|b s]; [discriminate|]. cbn [startswith length skipn app].
  intros H. apply andb_true_iff in H. destruct H as [Hab Hp].
  apply Ascii.eqb_eq in Hab. subst b. f_equal. apply IH, Hp.
Qed.

Lemma after_any_app (ps : list str) (s rest : str) :
  after_any ps s = Some rest -> exists p, In p ps /\ s = p ++ rest.
Proof.
  induction ps as [|p ps IH]; cbn [after_any]; [discriminate|].
  destruct (startswith p s) eqn:E.
  - intros [= <-]. exists p. split; [left; reflexivity|].
    apply startswith_app, E.
  - intros H. destruct (IH H) as (p' & Hin & Hs). exists p'.
    split; [right; exact Hin | exact Hs].
Qed.

Lemma take_id_app (s id : str) :
  take_id s = Some id ->
  length id = 11 /\ forallb is_id_char id = true
  /\ s = id ++ skipn 11 s.
Proof.
  unfold take_id. destruct (_ && _) eqn:E; [|discriminate].
  intros H. assert (firstn 11 s = id) as <- by congruence. clear H.
  apply andb_true_iff in E. destruct E as [Hl Hc].
  apply Nat.leb_le in Hl. split; [apply firstn_length_le, Hl|].
  split; [exact Hc|]. symmetry. apply firstn_skipn.
Qed.

Lemma id_here_app (s id : str) :
  id_here s = Some id ->
  exists p rest, s = p ++ id ++ rest /\ In p prefixes
                 /\ length id = 11 /\ forallb is_id_char id = true.
Proof.
  unfold id_here, after_prefix.
  destruct (after_any prefixes s) as [r|] eqn:E; [|discriminate].
  intros H. destruct (after_any_app _ _ E) as (p & Hin & ->).
  destruct (take_id_app _ H) as (Hl & Hc & Hr).
  exists p, (skipn 11 r). rewrite <- Hr. auto.
Qed.

(** C9, as amended.  The extractor never fails; it returns the eleven
    identifier characters that follow a prefix at the leftmost place of
    the URL where a prefix is followed by eleven identifier characters,
    and [None] when there is no such place. *)
Theorem extract_video_id_leftmost_prefixed_id (url : str) :
  extract_video_id url = Ok (first_prefixed_id url)
  /\ (forall id,
        first_prefixed_id url = Some id ->
        exists pre p rest,
          url = pre ++ p ++ id ++ rest /\ In p prefixes
          /\ length id = 11 /\ forallb is_id_char id = true
          /\ forall pre' suf', url = pre' ++ suf' ->
                length pre' < length pre -> id_here suf' = None)
  /\ (first_prefixed_id url = None ->
      forall pre suf, url = pre ++ suf -> id_here suf = None).
Proof.
  split; [apply extract_is_first_prefixed_id|]. split.
  - intros id H.
    destruct (first_embedded_leftmost _ _ H) as (pre & suf & -> & Hs & Hl).
    destruct (id_here_app _ Hs) as (p & rest & -> & Hin & Hlen & Hc).
    exists pre, p, rest. auto.
  - apply first_embedded_nowhere.
Qed.

Lemma extract_video_id_leftmost_prefixed_id_witness :
  extract_video_id (py "https://www.youtube.com/watch?v=dQw4w9WgXcQ")
  = Ok (first_prefixed_id (py "https://www.youtube.com/watch?v=dQw4w9WgXcQ"))
  /\ first_prefixed_id (py "https://www.youtube.com/watch?v=dQw4w9WgXcQ")
     = Some (py "dQw4w9WgXcQ")
  /\ exists pre p rest,
      py "https://www.youtube.com/watch?v=dQw4w9WgXcQ"
      = pre ++ p ++ py "dQw4w9WgXcQ" ++ rest /\ In p prefixes.
Proof.
  pose proof (extract_video_id_leftmost_prefixed_id
                (py "https://www.youtube.com/watch?v=dQw4w9WgXcQ"))
    as (He & Hsome & _).
  split; [exact He|]. split; [vm_compute; reflexivity|].
  destruct (Hsome (py "dQw4w9WgXcQ") ltac:(vm_compute; reflexivity))
    as (pre & p & rest & Hu & Hin & _).
  exists pre, p, rest. auto.
Defined.

(** C9 as stated fails: the first occurrence of a prefix need not be the
    one that the identifier follows. *)
Lemma first_prefix_counterexample :
  extract_video_id (py "https://www.youtube.com/embed/?v=dQw4w9WgXcQ")
  = Ok (Some (py "dQw4w9WgXcQ"))
  /\ id_after_first_prefix (py "https://www.youtube.com/embed/?v=dQw4w9WgXcQ")
     = None.
Proof. split; vm_compute; reflexivity. Qed.

End ExtractorFacts.

(** * The request handler *)

Module HandlerFacts.
Import PyStr Normalizer Handler.
Local Open Scope io_scope.

Ltac splits := repeat match goal with |- _ /\ _ => split end.

(** *** The polling loop *)

Lemma poll_is_bounded_poll (w : world) (max_wait : Z) (k : nat) :
  forall f waited st,
    waited = (max_wait - 3 * Z.of_nat k)%Z ->
    poll w max_wait f waited st = bounded_poll w k f st.
Proof.
  induction k as [|k IH]; intros f waited st Hw; simp poll;
    cbn [bounded_poll]; destruct (is_active f); cbn -[refetch];
    try reflexivity.
  - destruct (Z_lt_dec waited max_wait); [lia | reflexivity].
  - destruct (Z_lt_dec waited max_wait); [|lia]. cbn -[refetch].
    destruct (refetch w f st) as [st' [f'|e]]; cbn -[refetch];
      [|reflexivity].
    apply IH. lia.
Qed.

Lemma bounded_poll_effect (w : world) (k : nat) :
  forall f st st' r,
    bounded_poll w k f st = (st', r) ->
    exists evs,
      trace st' = trace st ++ evs
      /\ poll_trace evs (returns r)
      /\ length evs <= 2 * k
      /\ tmp_audio st' = tmp_audio st
      /\ tmp_dir_exists st' = tmp_dir_exists st
      /\ dir_entries st' = dir_entries st
      /\ (is_some (uploaded_file st) = true ->
          is_some (uploaded_file st') = true)
      /\ (forall f', r = Ok f' ->
            (uploaded_file st = Some f -> uploaded_file st' = Some f')
            /\ (is_active f' = true \/ length evs = 2 * k)).
Proof.
  assert (forall f st (n : nat),
             is_active f = true \/ n = 0 ->
             exists evs,
               trace st = trace st ++ evs
               /\ poll_trace evs (returns (Ok f))
               /\ length evs <= 2 * n
               /\ tmp_audio st = tmp_audio st
               /\ tmp_dir_exists st = tmp_dir_exists st
               /\ dir_entries st = dir_entries st
               /\ (is_some (uploaded_file st) = true ->
                   is_some (uploaded_file st) = true)
               /\ (forall f', Ok f = Ok f' ->
                     (uploaded_file st = Some f -> uploaded_file st = Some f')
                     /\ (is_active f' = true \/ length evs = 2 * n)))
    as Hstop.
  { intros f st n Hn. exists []. rewrite app_nil_r.
    splits; auto using poll_done; try (simpl; lia).
    intros f' [= <-]. split; [auto|].
    destruct Hn as [Hn | ->]; [left; exact Hn | right; reflexivity]. }
  induction k as [|k IH]; intros f st st' r; cbn [bounded_poll].
  - assert ((if is_active f then (st, Ok f) else (st, Ok f)) = (st, Ok f))
      as -> by (destruct (is_active f); reflexivity).
    intros [= <- <-]. apply Hstop. right. reflexivity.
  - destruct (is_active f) eqn:Ha.
    { intros [= <- <-]. apply Hstop. left. exact Ha. }
    unfold refetch, mbind, external, count_get, set_uploaded_file, ret.
    cbn -[bounded_poll Nat.mul].
    destruct (get_result w (gets st) (file_name f)) as [f1|e] eqn:Hg;
      cbn -[bounded_poll Nat.mul].
    + intros Hb. destruct (IH _ _ _ _ Hb)
        as (evs & Ht & Hp & Hl & Hta & Hd & He & Hu & Hr).
      cbn in Ht, Hta, Hd, He, Hu, Hr.
      exists ((CSleep 3, true) :: (CGet (file_name f), true) :: evs).
      rewrite Ht, <- !app_assoc. cbn [app length].
      splits; auto using poll_turn; try lia.
      intros f' Hf'. destruct (Hr f' Hf') as [H1 H2]. split.
      * intros _. apply H1. reflexivity.
      * destruct H2 as [H2|H2]; [left; exact H2 | right; lia].
    + intros [= <- <-]. cbn.
      exists [(CSleep 3, true); (CGet (file_name f), false)].
      rewrite <- app_assoc. cbn [app length].
      splits; auto using poll_failed; try lia. discriminate.
Qed.

(** What can be read off a polling trace. *)
Lemma poll_trace_facts (evs : list event) (b : bool) :
  poll_trace evs b ->
  filter is_sleep evs = repeat (CSleep 3, true) (count is_sleep evs)
  /\ length evs = 2 * count is_sleep evs
  /\ count is_get evs = count is_sleep evs
  /\ filter is_cleanup evs = []
  /\ filter is_upload evs = [] /\ filter is_generate evs = []
  /\ filter is_run evs = [] /\ filter is_mkdtemp evs = []
  /\ (forall t1 c t2, evs = t1 ++ (c, false) :: t2 -> t2 = [])
  /\ forallb snd evs = b.
Proof.
  unfold count. induction 1 as [|name evs b H IH|name].
  - splits; try reflexivity.
    intros [|? ?] c t2 Heq; discriminate.
  - destruct IH as (Hs & Hl & Hg & Hc & Hu & Hgen & Hr & Hm & Hf & Hok).
    cbn [filter is_sleep is_get is_cleanup is_remove is_delete is_upload
         is_generate is_run is_mkdtemp fst snd orb length repeat forallb
         andb].
    splits; try assumption; try lia.
    + rewrite Hs at 1. reflexivity.
    + intros [|e1 [|e2 t1]] c t2 Heq; cbn in Heq; try discriminate.
      injection Heq as _ _ Heq. apply (Hf _ _ _ Heq).
  - cbn. splits; try reflexivity.
    intros [|e1 [|e2 [|e3 t1]]] c t2 Heq; cbn in Heq; try discriminate;
      injection Heq; auto.
Qed.

(** *** The exit paths of the [try] block *)

Ltac step :=
  cbn -[py str_eqb existsb first_audio bounded_poll poll prompt Z.eqb
        chosen_path oracle_answer downloaded].

Lemma acquire_exit (w : world) (body : AskRequest) :
  acquire w body initial =
  match mkdtemp_result w with
  | Raise e =>
      ({| tmp_audio := None; uploaded_file := None; tmp_dir_exists := false;
          dir_entries := []; gets := 0; trace := [(CMkdtemp, false)] |},
       Raise e)
  | Ok _ =>
      match run_result w (video_url body) with
      | Raise e =>
          (downloaded w (py "audio.mp3") None
                      [(CRun (video_url body), false)], Raise e)
      | Ok (returncode, stderr) =>
          if (returncode =? 0)%Z then
            (downloaded w (chosen_path w) None
                        [(CRun (video_url body), true)],
             if existsb (str_eqb (chosen_path w)) (run_files w)
             then Ok (chosen_path w)
             else Raise (HTTPException 500 (py "Audio file not created")))
          else
            (downloaded w (py "audio.mp3") None
                        [(CRun (video_url body), true)],
             Raise (HTTPException 400 (py "yt-dlp error: " ++ stderr)))
      end
  end.
Proof.
  unfold acquire, mkdtemp, run_downloader, get_tmp_audio, path_exists,
    listdir, mbind, external, set_dir, set_tmp_audio, ret, raise, log,
    initial, downloaded.
  step.
  destruct (mkdtemp_result w) as [[]|e]; step; [|reflexivity].
  destruct (run_result w (video_url body)) as [[rc err]|e]; step;
    [|reflexivity].
  destruct (rc =? 0)%Z; step; [|reflexivity].
  unfold chosen_path.
  destruct (existsb (str_eqb (py "audio.mp3")) (run_files w)) eqn:E1; step.
  - rewrite E1. reflexivity.
  - destruct (first_audio (run_files w)) as [f|]; step.
    + destruct (existsb (str_eqb f) (run_files w)); reflexivity.
    + rewrite E1. reflexivity.
Qed.

Lemma try_body_exit (w : world) (body : AskRequest) :
  try_exit w body (fst (try_body w body initial))
                  (snd (try_body w body initial)).
Proof.
  destruct (try_body w body initial) as [st r] eqn:E. cbn [fst snd].
  unfold try_body in E. unfold mbind at 1 in E. rewrite acquire_exit in E.
  destruct (mkdtemp_result w) as [[]|e] eqn:Hm;
    [|injection E as <- <-; apply exit_mkdtemp_raised; assumption].
  destruct (run_result w (video_url body)) as [[rc err]|e] eqn:Hr;
    [|injection E as <- <-; apply exit_run_raised; assumption].
  destruct (Z.eqb_spec rc 0) as [->|Hrc];
    [|injection E as <- <-; eapply exit_download_failed; eassumption].
  destruct (existsb (str_eqb (chosen_path w)) (run_files w)) eqn:Hx;
    [|injection E as <- <-; eapply exit_asset_missing; eassumption].
  unfold upload_and_poll, query, mbind, external, set_uploaded_file, ret,
    raise, lift, log in E.
  cbn -[py str_eqb existsb first_audio bounded_poll poll prompt Z.eqb
        chosen_path oracle_answer] in E.
  destruct (upload_result w (chosen_path w)) as [f|e] eqn:Hu;
    cbn -[py str_eqb existsb first_audio bounded_poll poll prompt Z.eqb
          chosen_path oracle_answer] in E;
    [|injection E as <- <-; eapply exit_upload_raised; eassumption].
  rewrite (@poll_is_bounded_poll w 120 40) in E by reflexivity.
  change {| tmp_audio := Some (chosen_path w); uploaded_file := Some f;
            tmp_dir_exists := true; dir_entries := run_files w; gets := 0;
            trace := [(CMkdtemp, true); (CRun (video_url body), true);
                      (CUpload (chosen_path w), true)] |}
    with (uploaded_state w body f) in E.
  destruct (bounded_poll w 40 f (uploaded_state w body f))
    as [st' [f'|e]] eqn:Hp;
    [|injection E as <- <-; eapply exit_poll_raised; eassumption].
  destruct (is_active f') eqn:Ha;
    cbn -[py str_eqb existsb first_audio bounded_poll poll prompt Z.eqb
          chosen_path oracle_answer] in E;
    [|injection E as <- <-; eapply exit_poll_timeout; eassumption].
  pose proof (@exit_query w body err f f' st' Hm Hr Hx Hu Hp Ha) as Hq.
  unfold oracle_answer, log in Hq.
  destruct (generate_result w (file_uri f') (prompt (topic body)))
    as [text|e];
    cbn -[py prompt] in E, Hq; [|injection E as <- <-; exact Hq].
  destruct (json_loads w text) as [data|e];
    cbn -[py prompt] in E, Hq; [|injection E as <- <-; exact Hq].
  destruct (get_timestamp data) as [v|e];
    cbn -[py prompt] in E, Hq; [|injection E as <- <-; exact Hq].
  destruct (parse_json w v) as [ts|e];
    cbn -[py prompt] in E, Hq; injection E as <- <-; exact Hq.
Qed.

(** *** The [finally] block *)

Lemma cleanup_effect (w : world) (st : state) :
  exists st2,
    cleanup w st = (st2, Ok tt)
    /\ trace st2 = trace st ++ cleanup_calls w st
    /\ tmp_dir_exists st2 = tmp_dir_exists st
    /\ tmp_audio st2 = tmp_audio st
    /\ uploaded_file st2 = uploaded_file st
    /\ dir_entries st2 =
       match removal st with
       | Some p =>
           if returns (remove_result w p)
           then filter (fun f => negb (str_eqb p f)) (dir_entries st)
           else dir_entries st
       | None => dir_entries st
       end.
Proof.
  unfold cleanup, cleanup_calls, removal, os_remove, try_pass, path_exists,
    mbind, external, set_dir, ret, log.
  destruct st as [ta uf d entries g t]. cbn -[str_eqb existsb filter].
  destruct ta as [p|]; cbn -[str_eqb existsb filter].
  - destruct (d && existsb (str_eqb p) entries);
      cbn -[str_eqb existsb filter].
    + destruct (remove_result w p) as [[]|e];
        cbn -[str_eqb existsb filter];
        destruct uf as [f|]; cbn -[str_eqb existsb filter];
        eexists; splits; try reflexivity;
        cbn; rewrite <- ?app_assoc, ?app_nil_r; reflexivity.
    + destruct uf as [f|]; cbn -[str_eqb existsb filter];
        eexists; splits; try reflexivity;
        cbn; rewrite <- ?app_assoc, ?app_nil_r; reflexivity.
  - destruct uf as [f|]; cbn -[str_eqb existsb filter];
      eexists; splits; try reflexivity;
      cbn; rewrite <- ?app_assoc, ?app_nil_r; reflexivity.
Qed.

(** The request as a whole: the [try] block, the [except] clauses on its
    outcome, then the [finally] block, which never raises. *)
Lemma ask_exit (w : world) (body : AskRequest) :
  exists st1 r st2,
    try_body w body initial = (st1, r)
    /\ try_exit w body st1 r
    /\ cleanup w st1 = (st2, Ok tt)
    /\ ask w body = (st2, as_http r).
Proof.
  pose proof (try_body_exit w body) as Hexit.
  destruct (try_body w body initial) as [st1 r] eqn:Ht. cbn [fst snd] in Hexit.
  destruct (cleanup_effect w st1) as (st2 & Hc & _).
  exists st1, r, st2. splits; auto.
  unfold ask, try_finally, except_clauses. rewrite Ht.
  destruct r as [a|[]]; cbn [as_http]; rewrite Hc; reflexivity.
Qed.

(** *** Reading the traces of the exit paths *)

Lemma count_app (p : event -> bool) (a b : list event) :
  count p (a ++ b) = count p a + count p b.
Proof. unfold count. rewrite filter_app, length_app. reflexivity. Qed.


Lemma poll_trace_stops (evs : list event) (b : bool) (rest : list event) :
  poll_trace evs b ->
  stops_at_first_failure (evs ++ rest)
  = if b then stops_at_first_failure rest else forallb is_cleanup rest.
Proof.
  induction 1 as [|name evs b H IH|name]; cbn; auto.
Qed.

Ltac poll_facts :=
  match goal with
  | Hp : bounded_poll _ _ _ _ = (_, ?r) |- _ =>
      let evs := fresh "evs" in
      destruct (bounded_poll_effect _ _ _ _ Hp)
        as (evs & Htr & Hpt & Hlen & Hta & Hdir & Hent & Hup & Hres);
      destruct (poll_trace_facts Hpt)
        as (Hsl & Hl2 & Hget & Hcl & Hupl & Hgen & Hrun & Hmk & Hlast & Hok);
      cbn [uploaded_state downloaded trace tmp_audio uploaded_file
           tmp_dir_exists dir_entries is_some returns]
        in Htr, Hta, Hdir, Hent, Hup, Hres, Hpt, Hok
  end.

Ltac use_mkdtemp :=
  match goal with
  | Hm : mkdtemp_result _ = _ |- _ => rewrite ?Hm
  end.

Lemma poll_trace_stops_nil (evs : list event) (b : bool) :
  poll_trace evs b -> stops_at_first_failure evs = true.
Proof.
  intros H. pose proof (poll_trace_stops [] H) as Hs.
  rewrite app_nil_r in Hs. rewrite Hs. destruct b; reflexivity.
Qed.

Lemma try_exit_facts (w : world) (body : AskRequest) (st : state)
      (r : result response) :
  try_exit w body st r -> try_facts w st r.
Proof.
  intros H. inversion H; subst; clear H.
  1-5: constructor; use_mkdtemp; cbn; try reflexivity; try lia;
         try (exists 0; splits; [lia | reflexivity | reflexivity]);
         try discriminate.
  - (* a fetch raised *)
    poll_facts. unfold count in *.
    constructor; use_mkdtemp; rewrite ?Htr; unfold count, upload_succeeded;
      rewrite ?filter_app, ?existsb_app, ?length_app,
        ?Hcl, ?Hupl, ?Hgen, ?Hrun, ?Hmk; cbn; auto; try lia;
      try (rewrite Hta; reflexivity);
      try (rewrite (poll_trace_stops_nil Hpt); reflexivity).
    exists (length (filter is_sleep evs)). splits; [lia | exact Hsl | lia].
  - (* the loop ran out *)
    poll_facts. unfold count in *.
    constructor; use_mkdtemp; rewrite ?Htr; unfold count, upload_succeeded;
      rewrite ?filter_app, ?existsb_app, ?length_app,
        ?Hcl, ?Hupl, ?Hgen, ?Hrun, ?Hmk; cbn; auto; try lia;
      try (rewrite Hta; reflexivity);
      try (rewrite (poll_trace_stops_nil Hpt); reflexivity).
    exists (length (filter is_sleep evs)). splits; [lia | exact Hsl | lia].
  - (* the service was asked *)
    poll_facts. unfold count in *. unfold log, oracle_answer.
    set (g := generate_result w (file_uri f') (prompt (topic body))).
    cbn [trace tmp_audio uploaded_file tmp_dir_exists dir_entries].
    constructor; use_mkdtemp; rewrite ?Htr, <- ?app_assoc;
      unfold count, upload_succeeded; cbn;
      rewrite ?filter_app, ?existsb_app, ?forallb_app, ?length_app,
        ?Hcl, ?Hupl, ?Hgen, ?Hrun, ?Hmk, ?Hok; cbn; auto; try lia;
      try (rewrite Hta; reflexivity).
    + exists (length (filter is_sleep evs)). splits; try lia.
      rewrite app_nil_r. exact Hsl.
    + rewrite (poll_trace_stops _ Hpt). cbn.
      destruct (returns g); reflexivity.
    + destruct g; cbn; [|reflexivity]. intros Hx.
      exfalso. rewrite andb_true_r in Hx.
      assert (true = false) by (rewrite <- Hok, <- Hx; reflexivity).
      discriminate.
Qed.

(** *** Cleanup on every exit path *)

Lemma str_eqb_eq (a b : str) : str_eqb a b = true <-> a = b.
Proof.
  unfold str_eqb. destruct (list_eq_dec ascii_dec a b); split; congruence.
Qed.



Lemma filter_weaker_nil (p q : event -> bool) (t : list event) :
  (forall e, q e = true -> p e = true) ->
  filter p t = [] -> filter q t = [].
Proof.
  intros Hpq. induction t as [|e t IH]; [reflexivity|]. cbn [filter].
  destruct (p e) eqn:Hp; [discriminate|]. intros Ht.
  destruct (q e) eqn:Hq; [rewrite (Hpq e Hq) in Hp; discriminate|].
  apply IH, Ht.
Qed.

Lemma cleanup_calls_facts (w : world) (st : state) :
  filter is_cleanup (cleanup_calls w st) = cleanup_calls w st
  /\ forallb is_cleanup (cleanup_calls w st) = true
  /\ count is_delete (cleanup_calls w st)
     = (if is_some (uploaded_file st) then 1 else 0)
  /\ count is_remove (cleanup_calls w st)
     = (if is_some (removal st) then 1 else 0)
  /\ upload_succeeded (cleanup_calls w st) = false
  /\ filter is_sleep (cleanup_calls w st) = []
  /\ count is_get (cleanup_calls w st) = 0
  /\ count is_generate (cleanup_calls w st) = 0
  /\ count is_mkdtemp (cleanup_calls w st) = 0
  /\ count is_run (cleanup_calls w st) = 0
  /\ count is_upload (cleanup_calls w st) = 0.
Proof.
  unfold cleanup_calls.
  destruct (removal st), (uploaded_file st); cbn; splits; reflexivity.
Qed.



(** *** The readiness poll *)

Lemma ask_trace (w : world) (body : AskRequest) :
  exists st1 r,
    try_body w body initial = (st1, r)
    /\ try_exit w body st1 r
    /\ snd (ask w body) = as_http r
    /\ trace (fst (ask w body)) = trace st1 ++ cleanup_calls w st1
    /\ tmp_dir_exists (fst (ask w body)) = tmp_dir_exists st1
    /\ tmp_audio (fst (ask w body)) = tmp_audio st1
    /\ dir_entries (fst (ask w body)) =
       match removal st1 with
       | Some p =>
           if returns (remove_result w p)
           then filter (fun f => negb (str_eqb p f)) (dir_entries st1)
           else dir_entries st1
       | None => dir_entries st1
       end.
Proof.
  destruct (ask_exit w body) as (st1 & r & st2 & Ht & Hexit & Hc & Ha).
  destruct (cleanup_effect w st1)
    as (st2' & Hc' & Htr & Hdir & Hta & _ & Hent).
  rewrite Hc in Hc'. injection Hc' as <-.
  exists st1, r. rewrite Ha. cbn [fst snd]. splits; auto.
Qed.





(** *** Failure propagation *)







(** C10.  The directory made for the request is still there when the
    request ends, on every exit path; the only file that can have gone is
    the one recorded in [tmp_audio], and only through the one [os.remove]
    of the [finally] block: every other entry that the downloader left
    survives. *)
Theorem temp_dir_is_never_removed (w : world) (body : AskRequest) :
  let left_at := fst (try_body w body initial) in
  let final := fst (ask w body) in
  (mkdtemp_result w = Ok tt -> tmp_dir_exists final = true)
  /\ dir_entries left_at
     = (if returns (mkdtemp_result w) then run_files w else [])
  /\ (forall f, In f (dir_entries left_at) ->
                tmp_audio final <> Some f ->
                In f (dir_entries final))
  /\ (forall p ok, In (CRemove p, ok) (trace final) ->
                   tmp_audio final = Some p)
  /\ count is_remove (trace final) <= 1.
Proof.
  cbn zeta.
  destruct (ask_trace w body)
    as (st1 & r & Ht & Hexit & _ & Htr & Hdir & Hta & Hent).
  destruct (try_exit_facts Hexit)
    as [Hnc _ Hd _ He _ _ _ _ _ _ _].
  rewrite Ht, Hdir, Hta, Hent, Htr. cbn [fst].
  assert (forall p, removal st1 = Some p -> tmp_audio st1 = Some p) as Hrem.
  { intros p. unfold removal. destruct (tmp_audio st1) as [q|];
      [|discriminate].
    destruct (_ && _); [congruence | discriminate]. }
  splits.
  - intros Hm. rewrite Hd, Hm. reflexivity.
  - exact He.
  - intros f Hin Hne. destruct (removal st1) as [p|] eqn:Hr; [|exact Hin].
    destruct (returns (remove_result w p)); [|exact Hin].
    apply filter_In. split; [exact Hin|].
    destruct (str_eqb p f) eqn:E; [|reflexivity].
    apply str_eqb_eq in E. subst f. rewrite (Hrem p eq_refl) in Hne.
    contradiction.
  - intros p ok Hin. apply in_app_or in Hin. destruct Hin as [Hin|Hin].
    + exfalso.
      assert (In (CRemove p, ok) (filter is_cleanup (trace st1))) as Hf
        by (apply filter_In; split; [exact Hin | reflexivity]).
      rewrite Hnc in Hf. exact Hf.
    + unfold cleanup_calls in Hin. apply in_app_or in Hin.
      destruct Hin as [Hin|Hin].
      * destruct (removal st1) as [q|] eqn:Hr; [|contradiction].
        destruct Hin as [Hin|[]]. injection Hin as -> _.
        apply Hrem. reflexivity.
      * destruct (uploaded_file st1); [|contradiction].
        destruct Hin as [Hin|[]]. discriminate.
  - rewrite count_app. unfold count at 1.
    rewrite (@filter_weaker_nil is_cleanup is_remove _
               ltac:(intros e0 He0; unfold is_cleanup; rewrite He0;
                     reflexivity) Hnc).
    destruct (cleanup_calls_facts w st1) as (_ & _ & _ & Hr & _).
    rewrite Hr. destruct (is_some (removal st1)); simpl; lia.
Qed.

(** *** The theorems at the sample worlds *)





Lemma temp_dir_is_never_removed_witness :
  tmp_dir_exists (fst (ask happy_world sample_request)) = true
  /\ tmp_audio (fst (ask happy_world sample_request))
     = Some (py "audio.mp3.mp3")
  /\ In (py "cover.jpg") (dir_entries (fst (ask happy_world sample_request))).
Proof.
  pose proof (temp_dir_is_never_removed happy_world sample_request)
    as (H1 & _ & H3 & _).
  split; [apply H1; reflexivity|].
  split; [vm_compute; reflexivity|].
  apply H3.
  - vm_compute. auto.
  - vm_compute. discriminate.
Defined.

End HandlerFacts.

(** * More about the timestamp normalizer *)

Module NormalizerMore.
Import PyStr Re Normalizer Rules Vocabulary PyStrFacts ReFacts
  NormalizerFacts.
Local Open Scope result_scope.

(** *** White space around the input *)

Lemma lstrip_spaces (ws : str) :
  forallb isspace ws = true -> lstrip ws = [].
Proof.
  induction ws as [|c ws IH]; [reflexivity|]. cbn [forallb lstrip].
  intros H. apply andb_true_iff in H. destruct H as [-> H]. apply IH, H.
Qed.

Lemma lstrip_app (a b : str) :
  lstrip (a ++ b) = if forallb isspace a then lstrip b else lstrip a ++ b.
Proof.
  induction a as [|c a IH]; [reflexivity|]. cbn [app lstrip forallb].
  destruct (isspace c); [exact IH | reflexivity].
Qed.

Lemma forallb_rev_same (p : ascii -> bool) (l : str) :
  forallb p (rev l) = forallb p l.
Proof.
  induction l as [|c l IH]; [reflexivity|]. cbn [rev forallb].
  rewrite forallb_app, IH. cbn [forallb]. rewrite andb_true_r.
  apply andb_comm.
Qed.

Lemma rstrip_spaces_app (s ws : str) :
  forallb isspace ws = true -> rstrip (s ++ ws) = rstrip s.
Proof.
  intros H. unfold rstrip. rewrite rev_app_distr, lstrip_app.
  rewrite forallb_rev_same, H. reflexivity.
Qed.

Lemma strip_padding (pre raw post : str) :
  forallb isspace pre = true -> forallb isspace post = true ->
  strip (pre ++ raw ++ post) = strip raw.
Proof.
  intros Hpre Hpost. unfold strip. rewrite lstrip_app, Hpre, lstrip_app.
  destruct (forallb isspace raw) eqn:Hraw.
  - rewrite (lstrip_spaces _ Hpost), (lstrip_spaces _ Hraw). reflexivity.
  - apply rstrip_spaces_app, Hpost.
Qed.

(** X1.  White space before and after the input never changes what the
    normalizer returns or raises. *)
Theorem padding_is_ignored (max_str_digits : nat) (pre raw post : str) :
  forallb isspace pre = true -> forallb isspace post = true ->
  parse_timestamp_to_hhmmss max_str_digits (pre ++ raw ++ post)
  = parse_timestamp_to_hhmmss max_str_digits raw.
Proof.
  intros Hpre Hpost. unfold parse_timestamp_to_hhmmss.
  rewrite (@strip_padding pre raw post Hpre Hpost). reflexivity.
Qed.

Lemma padding_is_ignored_witness :
  parse_timestamp_to_hhmmss default_max_str_digits
    ([" "%char; "009"%char] ++ py "5:47" ++ ["010"%char])
  = parse_timestamp_to_hhmmss default_max_str_digits (py "5:47").
Proof. apply padding_is_ignored; reflexivity. Defined.

(** *** Inputs without a digit *)

Lemma forallb_lstrip (p : ascii -> bool) (s : str) :
  forallb p s = true -> forallb p (lstrip s) = true.
Proof.
  induction s as [|c s IH]; [reflexivity|]. cbn [lstrip].
  destruct (isspace c); [|auto]. cbn [forallb]. intros H.
  apply andb_true_iff in H. apply IH, H.
Qed.

Lemma forallb_strip (p : ascii -> bool) (s : str) :
  forallb p s = true -> forallb p (strip s) = true.
Proof.
  intros H. unfold strip, rstrip. rewrite forallb_rev_same.
  apply forallb_lstrip. rewrite forallb_rev_same.
  apply forallb_lstrip, H.
Qed.

Lemma no_digit_here (s : str) :
  forallb no_digit s = true -> hms_here s = None /\ ms_here s = None.
Proof.
  unfold hms_here, hms2_here, hms1_here, ms_here, ms2_here, ms1_here.
  destruct s as [|c s]; [split; reflexivity|]. cbn [forallb].
  intros H. apply andb_true_iff in H. destruct H as [Hc _].
  unfold no_digit in Hc. apply negb_true_iff in Hc.
  destruct s as [|c1 [|c2 [|c3 [|c4 s]]]]; rewrite ?Hc; split; reflexivity.
Qed.

Lemma no_digit_embedded (s : str) :
  forallb no_digit s = true ->
  first_embedded hms_here s = None /\ first_embedded ms_here s = None.
Proof.
  induction s as [|c s IH]; intros H;
    destruct (no_digit_here _ H) as [Hh Hm]; cbn [first_embedded];
    rewrite Hh, Hm; [split; reflexivity|].
  cbn [forallb] in H. apply andb_true_iff in H. apply IH, H.
Qed.

Lemma no_digit_exact (t : str) :
  forallb no_digit t = true ->
  exact_hhmmss t = false /\ exact_mss t = None /\ is_digits t = false.
Proof.
  destruct t as [|c t]; [repeat split; reflexivity|]. cbn [forallb].
  intros H. apply andb_true_iff in H. destruct H as [Hc _].
  unfold no_digit in Hc. apply negb_true_iff in Hc.
  unfold exact_hhmmss, exact_mss, is_digits. cbn [forallb]. rewrite Hc.
  do 8 (try destruct t as [|? t]); repeat split;
    rewrite ?andb_false_r; reflexivity.
Qed.

(** X2.  An input without any digit, the empty string included, is
    normalized to 00:00:00. *)
Theorem no_digit_gives_zero (max_str_digits : nat) (raw : str) :
  forallb no_digit raw = true ->
  parse_timestamp_to_hhmmss max_str_digits raw = Ok (py "00:00:00").
Proof.
  intros H. apply (forallb_strip no_digit) in H.
  destruct (no_digit_exact _ H) as (E1 & E2 & E3).
  rewrite (parse_is_normalize max_str_digits _ E3).
  unfold normalize, rules. cbn [first_match].
  unfold rule1, rule2, rule3, rule4, rule5, rule6. rewrite E1, E2, E3.
  destruct (no_digit_embedded _ H) as (-> & ->). reflexivity.
Qed.

Lemma no_digit_gives_zero_witness :
  parse_timestamp_to_hhmmss default_max_str_digits
    (py "soon: after the intro")
  = Ok (py "00:00:00").
Proof. apply no_digit_gives_zero. reflexivity. Defined.

(** *** Normalizing an output again *)

Lemma strip_no_space (t : str) (c d : ascii) (u : str) :
  t = c :: u -> isspace c = false ->
  isspace (last t d) = false -> strip t = t.
Proof.
  intros -> Hc Hl. unfold strip, rstrip. cbn [lstrip]. rewrite Hc.
  destruct (rev (c :: u)) as [|e r] eqn:E.
  - apply (f_equal (@length ascii)) in E. rewrite length_rev in E.
    discriminate.
  - assert (last (c :: u) d = e) as He.
    { rewrite <- (rev_involutive (c :: u)), E. cbn [rev].
      apply last_last. }
    rewrite He in Hl. cbn [lstrip]. rewrite Hl, <- E.
    apply rev_involutive.
Qed.

Lemma exact_hhmmss_length (t : str) : exact_hhmmss t = true -> length t = 8.
Proof.
  unfold exact_hhmmss. do 9 (try destruct t as [|? t]); try discriminate.
  reflexivity.
Qed.

Lemma exact_mss_length (t : str) (x : str * str) :
  exact_mss t = Some x -> length t <= 5.
Proof.
  unfold exact_mss. do 6 (try destruct t as [|? t]); try discriminate;
    intros _; simpl; lia.
Qed.

(** The timestamp text with the given fields. *)
Lemma fields_length (h m sec : str) :
  two_digits m -> two_digits sec ->
  length (h ++ py ":" ++ m ++ py ":" ++ sec) = length h + 6.
Proof.
  intros (a & b & -> & _) (c & d & -> & _). rewrite length_app. reflexivity.
Qed.

Lemma fields_not_digits (h m sec : str) :
  is_digits (h ++ py ":" ++ m ++ py ":" ++ sec) = false.
Proof.
  unfold is_digits. rewrite forallb_app. cbn [py list_ascii_of_string app].
  cbn [forallb]. change (isdecimal ":"%char) with false.
  rewrite andb_false_r, andb_false_r. reflexivity.
Qed.

Lemma fields_strip (h m sec : str) :
  is_digits h = true -> two_digits sec ->
  strip (h ++ py ":" ++ m ++ py ":" ++ sec)
  = h ++ py ":" ++ m ++ py ":" ++ sec.
Proof.
  intros Hh (c & d & -> & Hc & Hd).
  pose proof (is_digits_forallb _ Hh) as Hf.
  destruct h as [|x h]; [discriminate|].
  cbn [forallb] in Hf. apply andb_true_iff in Hf. destruct Hf as [Hx _].
  eapply (@strip_no_space _ x "x"%char); [reflexivity | |].
  - apply isdecimal_not_space, Hx.
  - replace ((x :: h) ++ py ":" ++ m ++ py ":" ++ [c; d])
      with (((x :: h) ++ py ":" ++ m ++ py ":" ++ [c]) ++ [d])
      by (rewrite <- !app_assoc; reflexivity).
    rewrite last_last. apply isdecimal_not_space, Hd.
Qed.

Lemma first_embedded_cons {A} (shape : str -> option A) (c : ascii)
  (s : str) :
  first_embedded shape (c :: s)
  = match shape (c :: s) with
    | Some x => Some x
    | None => first_embedded shape s
    end.
Proof. reflexivity. Qed.

Lemma embedded_in_wide_hours (h m sec : str) :
  forallb isdecimal h = true -> 2 <= length h ->
  two_digits m -> two_digits sec ->
  first_embedded hms_here (h ++ py ":" ++ m ++ py ":" ++ sec)
  = Some (last_chars 2 h, m, sec).
Proof.
  intros Hh Hl (m1 & m2 & -> & Hm1 & Hm2) (s1 & s2 & -> & Hs1 & Hs2).
  induction h as [|c h IH]; [simpl in Hl; lia|].
  cbn [forallb] in Hh. apply andb_true_iff in Hh. destruct Hh as [Hc Hh].
  destruct h as [|d1 [|d2 h]].
  - simpl in Hl. lia.
  - cbn [forallb] in Hh. apply andb_true_iff in Hh. destruct Hh as [Hd1 _].
    cbn [app py list_ascii_of_string first_embedded].
    unfold hms_here, hms2_here, ms2_here, is_colon.
    rewrite Hc, Hd1, Hm1, Hm2, Hs1, Hs2. reflexivity.
  - cbn [forallb] in Hh. apply andb_true_iff in Hh.
    destruct Hh as [Hd1 Hh']. pose proof Hh' as Hh''.
    apply andb_true_iff in Hh''. destruct Hh'' as [Hd2 _].
    change ((c :: d1 :: d2 :: h) ++ py ":" ++ [m1; m2] ++ py ":" ++ [s1; s2])
      with (c :: (d1 :: d2 :: h) ++ py ":" ++ [m1; m2] ++ py ":" ++ [s1; s2]).
    rewrite first_embedded_cons.
    assert (hms_here (c :: (d1 :: d2 :: h) ++ py ":" ++ [m1; m2] ++ py ":"
                        ++ [s1; s2]) = None) as ->.
    { unfold hms_here, hms2_here, hms1_here. cbn [app].
      rewrite (colon_not_decimal _ Hd2), (colon_not_decimal _ Hd1),
        !andb_false_r.
      reflexivity. }
    rewrite IH.
    + unfold last_chars. cbn [length].
      replace (S (S (S (length h))) - 2) with (S (S (S (length h)) - 2))
        by lia.
      reflexivity.
    + cbn [forallb]. rewrite Hd1. exact Hh'.
    + simpl. lia.
Qed.

Lemma last_chars_all (n : nat) (s : str) : length s = n -> last_chars n s = s.
Proof.
  intros <-. unfold last_chars. rewrite Nat.sub_diag. reflexivity.
Qed.

Lemma last_chars_length (n : nat) (s : str) :
  n <= length s -> length (last_chars n s) = n.
Proof. intros H. unfold last_chars. rewrite length_skipn. lia. Qed.

(** Whatever the normalizer returns is three digit fields. *)
Lemma output_fields (max_str_digits : nat) (raw out : str) :
  parse_timestamp_to_hhmmss max_str_digits raw = Ok out ->
  exists h m sec,
    out = h ++ py ":" ++ m ++ py ":" ++ sec
    /\ is_digits h = true /\ 2 <= length h
    /\ two_digits m /\ two_digits sec.
Proof.
  intros Hout. destruct (is_digits (strip raw)) eqn:Hd.
  - rewrite (parse_digits_outcome max_str_digits _ Hd) in Hout.
    destruct (int_guard_trips _ _); [discriminate|].
    injection Hout as <-.
    pose proof (int_of_digits_nonneg _ (is_digits_forallb _ Hd)) as Hn.
    destruct (seconds_to_hhmmss_fields Hn)
      as (h & m & sec & -> & Hh & Hl & _ & _ & Hm & _ & Hs & _).
    exists h, m, sec. auto.
  - destruct (parse_non_digits max_str_digits _ Hd)
      as (h & m & sec & Hp & Hh & Hm & Hs).
    rewrite Hp in Hout. injection Hout as <-.
    destruct (two_digits_is_digits Hh) as [Hhd Hhl].
    exists h, m, sec. repeat split; try assumption; lia.
Qed.

Lemma exact_of_fields (h m sec : str) :
  two_digits h -> two_digits m -> two_digits sec ->
  exact_hhmmss (h ++ py ":" ++ m ++ py ":" ++ sec) = true.
Proof.
  intros (a & b & -> & Ha & Hb) (c & d & -> & Hc & Hd)
    (e & f & -> & He & Hf).
  cbn. rewrite Ha, Hb, Hc, Hd, He, Hf. reflexivity.
Qed.

Lemma last_chars_fields (h m sec : str) :
  2 <= length h -> two_digits m -> two_digits sec ->
  last_chars 8 (h ++ py ":" ++ m ++ py ":" ++ sec)
  = last_chars 2 h ++ py ":" ++ m ++ py ":" ++ sec.
Proof.
  intros Hl Hm Hs. unfold last_chars.
  rewrite (@fields_length h m sec Hm Hs), skipn_app.
  replace (length h + 6 - 8) with (length h - 2) by lia.
  replace (length h - 2 - length h) with 0 by lia.
  reflexivity.
Qed.

Lemma last_two_digits (h : str) :
  forallb isdecimal h = true -> 2 <= length h -> two_digits (last_chars 2 h).
Proof.
  intros Hd Hl.
  assert (forallb isdecimal (last_chars 2 h) = true) as Hf.
  { unfold last_chars. rewrite <- (firstn_skipn (length h - 2) h) in Hd.
    rewrite forallb_app in Hd. apply andb_true_iff in Hd. apply Hd. }
  pose proof (@last_chars_length 2 h Hl) as Hlen.
  destruct (last_chars 2 h) as [|a [|b [|? ?]]]; try discriminate.
  cbn [forallb] in Hf. apply andb_true_iff in Hf. destruct Hf as [Ha Hf].
  apply andb_true_iff in Hf. destruct Hf as [Hb _].
  exists a, b. auto.
Qed.

(** X3.  Normalizing an output of the normalizer again returns its last
    eight characters: an output with two hour digits is returned as it is,
    and one with more hour digits keeps only the last two of them. *)
Theorem renormalizing_keeps_last_eight (max_str_digits : nat)
  (raw out : str) :
  parse_timestamp_to_hhmmss max_str_digits raw = Ok out ->
  parse_timestamp_to_hhmmss max_str_digits out = Ok (last_chars 8 out).
Proof.
  intros Hout.
  destruct (output_fields _ _ Hout) as (h & m & sec & -> & Hh & Hl & Hm & Hs).
  pose proof (is_digits_forallb _ Hh) as Hf.
  assert (is_digits (strip (h ++ py ":" ++ m ++ py ":" ++ sec)) = false)
    as Hnd
    by (rewrite (@fields_strip h m sec Hh Hs); apply fields_not_digits).
  rewrite (parse_is_normalize max_str_digits _ Hnd). unfold normalize.
  rewrite (@fields_strip h m sec Hh Hs), (@last_chars_fields h m sec Hl Hm Hs).
  unfold rules. cbn [first_match]. unfold rule1 at 1.
  destruct (Nat.eq_dec (length h) 2) as [H2|H2].
  - rewrite (@last_chars_all 2 h H2).
    assert (two_digits h) as Hh2.
    { rewrite <- (@last_chars_all 2 h H2). apply last_two_digits; [exact Hf|lia]. }
    rewrite (@exact_of_fields h m sec Hh2 Hm Hs). reflexivity.
  - destruct (exact_hhmmss _) eqn:E1.
    { apply exact_hhmmss_length in E1. rewrite (@fields_length h m sec Hm Hs) in E1.
      lia. }
    unfold rule2 at 1.
    destruct (exact_mss _) as [x|] eqn:E2.
    { apply exact_mss_length in E2. rewrite (@fields_length h m sec Hm Hs) in E2.
      lia. }
    unfold rule3 at 1. rewrite fields_not_digits.
    unfold rule4 at 1.
    rewrite (@embedded_in_wide_hours h m sec Hf Hl Hm Hs).
    destruct (@last_two_digits h Hf Hl) as (a & b & -> & _). reflexivity.
Qed.

Lemma renormalizing_keeps_last_eight_witness :
  parse_timestamp_to_hhmmss default_max_str_digits (py "100:00:07")
  = Ok (last_chars 8 (py "100:00:07")).
Proof.
  apply (@renormalizing_keeps_last_eight default_max_str_digits
           (py "360007")).
  vm_compute. reflexivity.
Defined.

(** *** Seconds counts *)

Lemma seconds_to_hhmmss_inj (n1 n2 : Z) :
  (0 <= n1)%Z -> (0 <= n2)%Z ->
  seconds_to_hhmmss n1 = seconds_to_hhmmss n2 -> n1 = n2.
Proof.
  intros H1 H2 E.
  destruct (seconds_to_hhmmss_fields H1)
    as (h1 & m1 & s1 & E1 & Hh1 & _ & _ & Vh1 & Hm1 & Vm1 & Hs1 & Vs1).
  destruct (seconds_to_hhmmss_fields H2)
    as (h2 & m2 & s2 & E2 & Hh2 & _ & _ & Vh2 & Hm2 & Vm2 & Hs2 & Vs2).
  rewrite E1, E2 in E. apply (f_equal (split ":"%char)) in E.
  rewrite !split_three_fields in E
    by (apply is_digits_forallb;
        first [assumption | apply two_digits_is_digits; assumption]).
  injection E as -> -> ->.
  destruct (hms_bounds H1) as (_ & _ & _ & S1).
  destruct (hms_bounds H2) as (_ & _ & _ & S2).
  rewrite <- S1, <- S2, <- Vh1, <- Vh2, <- Vm1, <- Vm2, <- Vs1, <- Vs2.
  reflexivity.
Qed.

(** X4.  Two inputs that are strings of digits and that the normalizer
    accepts get the same timestamp exactly when they denote the same
    number: leading zeros do not matter, and no two counts share a
    timestamp. *)
Theorem seconds_counts_same_output_iff_same_value (max_str_digits : nat)
  (a b oa ob : str) :
  is_digits (strip a) = true -> is_digits (strip b) = true ->
  parse_timestamp_to_hhmmss max_str_digits a = Ok oa ->
  parse_timestamp_to_hhmmss max_str_digits b = Ok ob ->
  (oa = ob <-> int_of_digits (strip a) = int_of_digits (strip b)).
Proof.
  intros Ha Hb Pa Pb.
  rewrite (parse_digits_outcome max_str_digits _ Ha) in Pa.
  rewrite (parse_digits_outcome max_str_digits _ Hb) in Pb.
  destruct (int_guard_trips _ _); [discriminate|].
  destruct (int_guard_trips _ _); [discriminate|].
  injection Pa as <-. injection Pb as <-. split.
  - apply seconds_to_hhmmss_inj; apply int_of_digits_nonneg,
      is_digits_forallb; assumption.
  - intros ->. reflexivity.
Qed.

Lemma seconds_counts_same_output_iff_same_value_witness :
  py "00:05:47" = py "00:05:47"
  <-> int_of_digits (strip (py "347")) = int_of_digits (strip (py " 000347")).
Proof.
  apply (@seconds_counts_same_output_iff_same_value default_max_str_digits
           (py "347") (py " 000347")); vm_compute; reflexivity.
Defined.

(** *** The rules on inputs that are not strings of digits *)

Lemma exact_hhmmss_rule4 (t : str) :
  exact_hhmmss t = true -> rule4 t = Some t.
Proof.
  intros H.
  destruct (exact_hhmmss_fields _ H)
    as (h & m & sec & -> & (a & b & -> & Ha & Hb) & (c & d & -> & Hc & Hd)
        & (e & f & -> & He & Hf)).
  unfold rule4.
  cbn [py list_ascii_of_string app]. rewrite first_embedded_cons.
  unfold hms_here, hms2_here, ms2_here, is_colon.
  rewrite Ha, Hb, Hc, Hd, He, Hf. reflexivity.
Qed.

Lemma if_none (A : Type) (b : bool) : (if b then @None A else None) = None.
Proof. destruct b; reflexivity. Qed.

Lemma exact_mss_rule5 (t mm ss : str) :
  exact_mss t = Some (mm, ss) ->
  rule4 t = None /\ rule5 t = Some (py "00:" ++ pad2 mm ++ py ":" ++ ss).
Proof.
  unfold exact_mss, rule4, rule5.
  do 6 (try destruct t as [|? t]); try discriminate;
    destruct (_ && _) eqn:E; try discriminate;
    intros [= <- <-]; split_andb; unfold is_colon in *; colon_subst;
    cbn [first_embedded];
    unfold hms_here, hms2_here, hms1_here, ms_here, ms2_here, ms1_here,
      is_colon;
    rewrite ?if_none;
    repeat match goal with
           | Hd : isdecimal _ = true |- _ => rewrite Hd; clear Hd
           end;
    split; reflexivity.
Qed.

(** On such an input the output is that of the searching rules. *)
Lemma first_match_searches (t : str) :
  is_digits t = false ->
  first_match rules t = first_match [rule4; rule5; rule6] t.
Proof.
  intros Hd. unfold rules. cbn [first_match]. unfold rule1 at 1.
  destruct (exact_hhmmss t) eqn:E1.
  { rewrite (exact_hhmmss_rule4 _ E1). reflexivity. }
  unfold rule2 at 1. destruct (exact_mss t) as [[mm ss]|] eqn:E2.
  { destruct (exact_mss_rule5 _ E2) as [-> ->]. reflexivity. }
  unfold rule3 at 1. rewrite Hd. reflexivity.
Qed.

(** *** Timestamps inside plain text *)

Lemma lstrip_before_nonspace (pre rest : str) (c : ascii) :
  isspace c = false -> lstrip (pre ++ c :: rest) = lstrip pre ++ c :: rest.
Proof.
  intros Hc. induction pre as [|p pre IH]; cbn [app lstrip].
  - rewrite Hc. reflexivity.
  - destruct (isspace p); [exact IH | reflexivity].
Qed.

Lemma rstrip_after_nonspace (a post : str) (d : ascii) :
  isspace d = false -> rstrip (a ++ d :: post) = a ++ d :: rstrip post.
Proof.
  intros Hd. unfold rstrip. rewrite rev_app_distr. cbn [rev].
  rewrite <- app_assoc. cbn [app].
  rewrite (@lstrip_before_nonspace (rev post) (rev a) d Hd).
  rewrite rev_app_distr. cbn [rev]. rewrite rev_involutive, <- app_assoc.
  reflexivity.
Qed.

Lemma strip_around (pre post u v : str) (c d : ascii) :
  c :: u = v ++ [d] -> isspace c = false -> isspace d = false ->
  strip (pre ++ (c :: u) ++ post) = lstrip pre ++ (c :: u) ++ rstrip post.
Proof.
  intros E Hc Hd. unfold strip. cbn [app].
  rewrite (@lstrip_before_nonspace pre (u ++ post) c Hc).
  change (c :: u ++ post) with ((c :: u) ++ post).
  change (c :: u ++ rstrip post) with ((c :: u) ++ rstrip post).
  rewrite E, <- !app_assoc. cbn [app].
  rewrite app_assoc, (@rstrip_after_nonspace _ post d Hd), <- app_assoc.
  reflexivity.
Qed.

Lemma forallb_rstrip (p : ascii -> bool) (s : str) :
  forallb p s = true -> forallb p (rstrip s) = true.
Proof.
  intros H. unfold rstrip. rewrite forallb_rev_same.
  apply forallb_lstrip. rewrite forallb_rev_same. exact H.
Qed.

Lemma no_digit_head (c : ascii) (s : str) :
  no_digit c = true -> hms_here (c :: s) = None /\ ms_here (c :: s) = None.
Proof.
  intros Hc. unfold no_digit in Hc. apply negb_true_iff in Hc.
  unfold hms_here, hms2_here, hms1_here, ms_here, ms2_here, ms1_here.
  destruct s as [|c1 [|c2 [|c3 [|c4 s]]]]; rewrite ?Hc; split; reflexivity.
Qed.

Lemma first_embedded_after_plain (pre rest : str) :
  forallb no_digit pre = true ->
  first_embedded hms_here (pre ++ rest) = first_embedded hms_here rest
  /\ first_embedded ms_here (pre ++ rest) = first_embedded ms_here rest.
Proof.
  induction pre as [|c pre IH]; [split; reflexivity|]. cbn [forallb app].
  intros H. apply andb_true_iff in H. destruct H as [Hc H].
  rewrite !first_embedded_cons.
  destruct (@no_digit_head c (pre ++ rest) Hc) as [-> ->]. apply IH, H.
Qed.

Lemma colon_not_digits (a b : str) : is_digits (a ++ py ":" ++ b) = false.
Proof.
  unfold is_digits. rewrite forallb_app. cbn [py list_ascii_of_string app].
  cbn [forallb]. change (isdecimal ":"%char) with false.
  rewrite andb_false_r, andb_false_r. reflexivity.
Qed.

Lemma hms_here_start (h m sec rest : str) :
  one_or_two_digits h -> two_digits m -> two_digits sec ->
  hms_here (h ++ py ":" ++ m ++ py ":" ++ sec ++ rest) = Some (h, m, sec).
Proof.
  intros Hh (c & d & -> & Hc & Hd) (e & f & -> & He & Hf).
  destruct Hh as [(a & -> & Ha) | (a & b & -> & Ha & Hb)];
    cbn [py list_ascii_of_string app];
    unfold hms_here, hms2_here, hms1_here, ms2_here, is_colon;
    rewrite ?Ha, ?Hb, ?Hc, ?Hd, ?He, ?Hf; reflexivity.
Qed.

Lemma ms_here_start (m sec rest : str) :
  one_or_two_digits m -> two_digits sec ->
  ms_here (m ++ py ":" ++ sec ++ rest) = Some (m, sec).
Proof.
  intros Hm (e & f & -> & He & Hf).
  destruct Hm as [(a & -> & Ha) | (a & b & -> & Ha & Hb)];
    cbn [py list_ascii_of_string app];
    unfold ms_here, ms2_here, ms1_here, is_colon;
    rewrite ?Ha, ?Hb, ?He, ?Hf; [|reflexivity].
  destruct rest; reflexivity.
Qed.

Lemma first_embedded_here {A} (shape : str -> option A) (s : str) (x : A) :
  shape s = Some x -> first_embedded shape s = Some x.
Proof. intros H. destruct s; cbn [first_embedded]; rewrite H; reflexivity. Qed.

Lemma text_edges (h tail w : str) (d : ascii) :
  one_or_two_digits h -> tail = w ++ [d] -> isdecimal d = true ->
  exists c u v,
    h ++ tail = c :: u /\ c :: u = v ++ [d]
    /\ isspace c = false /\ isspace d = false.
Proof.
  intros [(a & -> & Ha) | (a & b & -> & Ha & Hb)] -> Hd.
  - exists a, (w ++ [d]), ([a] ++ w).
    split; [reflexivity|]. split; [reflexivity|].
    split; apply isdecimal_not_space; assumption.
  - exists a, (b :: w ++ [d]), ([a; b] ++ w).
    split; [reflexivity|]. split; [reflexivity|].
    split; apply isdecimal_not_space; assumption.
Qed.

(** X6.  A timestamp H:MM:SS or HH:MM:SS that follows text without any
    digit is the one returned, with the hours padded to two digits,
    whatever comes after it. *)
Theorem timestamp_after_plain_text (max_str_digits : nat)
  (pre h m sec post : str) :
  forallb no_digit pre = true ->
  one_or_two_digits h -> two_digits m -> two_digits sec ->
  parse_timestamp_to_hhmmss max_str_digits
    (pre ++ (h ++ py ":" ++ m ++ py ":" ++ sec) ++ post)
  = Ok (pad2 h ++ py ":" ++ m ++ py ":" ++ sec).
Proof.
  intros Hpre Hh Hm Hs.
  assert (exists c u v d,
             h ++ py ":" ++ m ++ py ":" ++ sec = c :: u
             /\ c :: u = v ++ [d]
             /\ isspace c = false /\ isspace d = false)
    as (c & u & v & d & E1 & E2 & Hc & Hd).
  { destruct Hs as (e & f & -> & He & Hf).
    destruct (@text_edges h (py ":" ++ m ++ py ":" ++ [e; f])
                (py ":" ++ m ++ py ":" ++ [e]) f Hh)
      as (c & u & v & H1 & H2 & H3 & H4).
    - rewrite <- !app_assoc. reflexivity.
    - exact Hf.
    - exists c, u, v, f. auto. }
  assert (is_digits (strip (pre ++ (h ++ py ":" ++ m ++ py ":" ++ sec)
                              ++ post)) = false) as Hnd.
  { rewrite E1, (@strip_around pre post u v c d E2 Hc Hd), <- E1.
    rewrite <- !app_assoc, (app_assoc (lstrip pre) h).
    apply colon_not_digits. }
  rewrite (parse_is_normalize max_str_digits _ Hnd). unfold normalize.
  rewrite (first_match_searches _ Hnd). cbn [first_match].
  rewrite E1, (@strip_around pre post u v c d E2 Hc Hd), <- E1.
  unfold rule4 at 1.
  destruct (@first_embedded_after_plain (lstrip pre)
              ((h ++ py ":" ++ m ++ py ":" ++ sec) ++ rstrip post)
              (forallb_lstrip _ _ Hpre)) as [-> _].
  rewrite <- !app_assoc.
  rewrite (first_embedded_here hms_here _
             (@hms_here_start h m sec (rstrip post) Hh Hm Hs)).
  reflexivity.
Qed.

Lemma timestamp_after_plain_text_witness :
  parse_timestamp_to_hhmmss default_max_str_digits
    (py "it starts at " ++ (py "1" ++ py ":" ++ py "02" ++ py ":" ++ py "03")
       ++ py ", not at 4:05")
  = Ok (pad2 (py "1") ++ py ":" ++ py "02" ++ py ":" ++ py "03").
Proof.
  apply timestamp_after_plain_text.
  - reflexivity.
  - left. exists "1"%char. split; reflexivity.
  - exists "0"%char, "2"%char. repeat split; reflexivity.
  - exists "0"%char, "3"%char. repeat split; reflexivity.
Defined.

(** *** A shape with hours needs five digits *)

Lemma digit_count_app (a b : str) :
  digit_count (a ++ b) = digit_count a + digit_count b.
Proof. unfold digit_count. rewrite filter_app, length_app. reflexivity. Qed.

Lemma digit_count_plain (s : str) :
  forallb no_digit s = true -> digit_count s = 0.
Proof.
  unfold digit_count. induction s as [|c s IH]; [reflexivity|].
  cbn [forallb filter]. intros H. apply andb_true_iff in H.
  destruct H as [Hc H]. unfold no_digit in Hc. apply negb_true_iff in Hc.
  rewrite Hc. apply IH, H.
Qed.

Lemma digit_count_field (f : str) :
  one_or_two_digits f -> digit_count f <= 2.
Proof.
  unfold digit_count.
  intros [(a & -> & Ha) | (a & b & -> & Ha & Hb)]; cbn [filter];
    rewrite ?Ha, ?Hb; cbn [length]; lia.
Qed.

Lemma ms2_here_digits (s : str) (x : str * str) :
  ms2_here s = Some x -> 4 <= digit_count s.
Proof.
  unfold ms2_here, digit_count.
  do 5 (try destruct s as [|? s]); try discriminate.
  destruct (_ && _) eqn:E; [|discriminate]. intros _. split_andb.
  cbn [filter].
  repeat match goal with
         | Hd : isdecimal _ = true |- _ => rewrite Hd; clear Hd
         end.
  destruct (isdecimal _); cbn [length]; lia.
Qed.

Lemma hms_here_digits (s : str) (x : str * str * str) :
  hms_here s = Some x -> 5 <= digit_count s.
Proof.
  unfold hms_here, hms2_here, hms1_here.
  destruct s as [|h1 [|h2 s]]; try discriminate.
  destruct s as [|c rest].
  - destruct (isdecimal h1 && is_colon h2); discriminate.
  - destruct (isdecimal h1 && isdecimal h2 && is_colon c) eqn:E2.
    + destruct (ms2_here rest) as [[m sec]|] eqn:Em.
      * intros _. apply ms2_here_digits in Em. split_andb.
        change (h1 :: h2 :: c :: rest) with ([h1; h2; c] ++ rest).
        rewrite digit_count_app. unfold digit_count at 1. cbn [filter].
        repeat match goal with
               | Hd : isdecimal _ = true |- _ => rewrite Hd; clear Hd
               end.
        destruct (isdecimal c); cbn [length]; lia.
      * destruct (isdecimal h1 && is_colon h2) eqn:E1; [|discriminate].
        destruct (ms2_here (c :: rest)) as [[m sec]|] eqn:Em';
          [|discriminate].
        intros _. apply ms2_here_digits in Em'. split_andb.
        change (h1 :: h2 :: c :: rest) with ([h1; h2] ++ c :: rest).
        rewrite digit_count_app. unfold digit_count at 1. cbn [filter].
        repeat match goal with
               | Hd : isdecimal _ = true |- _ => rewrite Hd; clear Hd
               end.
        destruct (isdecimal h2); cbn [length]; lia.
    + destruct (isdecimal h1 && is_colon h2) eqn:E1; [|discriminate].
      destruct (ms2_here (c :: rest)) as [[m sec]|] eqn:Em';
        [|discriminate].
      intros _. apply ms2_here_digits in Em'. split_andb.
      change (h1 :: h2 :: c :: rest) with ([h1; h2] ++ c :: rest).
      rewrite digit_count_app. unfold digit_count at 1. cbn [filter].
      repeat match goal with
             | Hd : isdecimal _ = true |- _ => rewrite Hd; clear Hd
             end.
      destruct (isdecimal h2); cbn [length]; lia.
Qed.

Lemma embedded_hms_digits (s : str) (x : str * str * str) :
  first_embedded hms_here s = Some x -> 5 <= digit_count s.
Proof.
  intros H. destruct (first_embedded_suffix _ _ H) as (pre & suf & -> & Hs).
  apply hms_here_digits in Hs. rewrite digit_count_app. lia.
Qed.

(** X7.  A time M:SS or MM:SS whose surrounding text has no digit is
    returned as 00:MM:SS: its minutes are padded to two digits and the
    hours are zero. *)
Theorem minutes_in_plain_text (max_str_digits : nat)
  (pre m sec post : str) :
  forallb no_digit pre = true -> forallb no_digit post = true ->
  one_or_two_digits m -> two_digits sec ->
  parse_timestamp_to_hhmmss max_str_digits
    (pre ++ (m ++ py ":" ++ sec) ++ post)
  = Ok (py "00:" ++ pad2 m ++ py ":" ++ sec).
Proof.
  intros Hpre Hpost Hm Hs.
  assert (exists c u v d,
             m ++ py ":" ++ sec = c :: u
             /\ c :: u = v ++ [d]
             /\ isspace c = false /\ isspace d = false)
    as (c & u & v & d & E1 & E2 & Hc & Hd).
  { destruct Hs as (e & f & -> & He & Hf).
    destruct (@text_edges m (py ":" ++ [e; f]) (py ":" ++ [e]) f Hm)
      as (c & u & v & H1 & H2 & H3 & H4).
    - reflexivity.
    - exact Hf.
    - exists c, u, v, f. auto. }
  assert (is_digits (strip (pre ++ (m ++ py ":" ++ sec) ++ post)) = false)
    as Hnd.
  { rewrite E1, (@strip_around pre post u v c d E2 Hc Hd), <- E1.
    rewrite <- !app_assoc, (app_assoc (lstrip pre) m).
    apply colon_not_digits. }
  rewrite (parse_is_normalize max_str_digits _ Hnd). unfold normalize.
  rewrite (first_match_searches _ Hnd). cbn [first_match].
  rewrite E1, (@strip_around pre post u v c d E2 Hc Hd), <- E1.
  unfold rule4 at 1.
  destruct (first_embedded hms_here _) as [x|] eqn:Eh.
  { apply embedded_hms_digits in Eh.
    rewrite !digit_count_app in Eh.
    rewrite (digit_count_plain _ (forallb_lstrip _ _ Hpre)) in Eh.
    rewrite (digit_count_plain _ (forallb_rstrip _ _ Hpost)) in Eh.
    pose proof (digit_count_field Hm) as Hdm.
    destruct Hs as (e & f & -> & He & Hf).
    unfold digit_count at 2 3 in Eh. cbn [py list_ascii_of_string filter] in Eh.
    rewrite He, Hf in Eh. change (isdecimal ":"%char) with false in Eh.
    cbn [length] in Eh. lia. }
  unfold rule5 at 1.
  destruct (@first_embedded_after_plain (lstrip pre)
              ((m ++ py ":" ++ sec) ++ rstrip post)
              (forallb_lstrip _ _ Hpre)) as [_ ->].
  rewrite <- !app_assoc.
  rewrite (first_embedded_here ms_here _
             (@ms_here_start m sec (rstrip post) Hm Hs)).
  reflexivity.
Qed.

Lemma minutes_in_plain_text_witness :
  parse_timestamp_to_hhmmss default_max_str_digits
    (py "around " ++ (py "5" ++ py ":" ++ py "47") ++ py " or so")
  = Ok (py "00:" ++ pad2 (py "5") ++ py ":" ++ py "47").
Proof.
  apply minutes_in_plain_text.
  - reflexivity.
  - reflexivity.
  - left. exists "5"%char. split; reflexivity.
  - exists "4"%char, "7"%char. repeat split; reflexivity.
Defined.

End NormalizerMore.

(** * More about the identifier extractor *)

Module ExtractorMore.
Import PyStr Re Extractor Rules ExtractorRules Vocabulary PyStrFacts
  NormalizerFacts ExtractorFacts.

Lemma take_id_exact (id rest : str) :
  length id = 11 -> forallb is_id_char id = true ->
  take_id (id ++ rest) = Some id.
Proof.
  intros Hl Hc. unfold take_id.
  rewrite firstn_app, Hl, Nat.sub_diag, firstn_O, app_nil_r.
  assert (firstn 11 id = id) as -> by (rewrite <- Hl; apply firstn_all).
  rewrite Hc, length_app, Hl. reflexivity.
Qed.

(** X8.  From a video address written in one of the three usual ways,
    the extractor returns the eleven identifier characters that follow
    the base, whatever comes after them. *)
Theorem standard_address_gives_id (base id rest : str) :
  In base standard_bases ->
  length id = 11 -> forallb is_id_char id = true ->
  extract_video_id (base ++ id ++ rest) = Ok (Some id).
Proof.
  intros Hb Hl Hc. rewrite extract_is_first_prefixed_id.
  pose proof (@take_id_exact id rest Hl Hc) as Ht.
  unfold first_prefixed_id, standard_bases in *.
  destruct Hb as [<- | [<- | [<- | []]]];
    cbn -[take_id]; rewrite Ht; reflexivity.
Qed.

Lemma standard_address_gives_id_witness :
  extract_video_id
    (py "https://youtu.be/" ++ py "dQw4w9WgXcQ" ++ py "?t=42")
  = Ok (Some (py "dQw4w9WgXcQ")).
Proof.
  apply standard_address_gives_id.
  - right. left. reflexivity.
  - reflexivity.
  - reflexivity.
Defined.

Lemma prefix_length (p : str) : In p prefixes -> 2 <= length p.
Proof.
  unfold prefixes. intros [<- | [<- | [<- | []]]]; cbn; lia.
Qed.

(** X9.  An address shorter than thirteen characters holds no
    identifier: the extractor returns [None]. *)
Theorem short_address_has_no_id (url : str) :
  length url < 13 -> extract_video_id url = Ok None.
Proof.
  intros Hl. rewrite extract_is_first_prefixed_id.
  unfold first_prefixed_id.
  destruct (first_embedded id_here url) as [id|] eqn:E; [|reflexivity].
  exfalso.
  destruct (first_embedded_suffix _ _ E) as (pre & suf & -> & Hs).
  destruct (id_here_app _ Hs) as (p & rest & -> & Hp & Hid & _).
  apply prefix_length in Hp. rewrite !length_app in Hl. lia.
Qed.

Lemma short_address_has_no_id_witness :
  extract_video_id (py "v=dQw4w9WgXc") = Ok None.
Proof. apply short_address_has_no_id. cbn. lia. Defined.

End ExtractorMore.

(** * More about the request handler *)

Module HandlerMore.
Import PyStr Normalizer Handler Vocabulary HandlerFacts.
Local Open Scope io_scope.

(** *** Reading the exit paths *)

Lemma poll_trace_no (p : event -> bool) (evs : list event) (e : event) :
  filter p evs = [] -> In e evs -> p e = false.
Proof.
  intros Hf Hin. destruct (p e) eqn:E; [|reflexivity].
  assert (In e (filter p evs)) as H by (apply filter_In; auto).
  rewrite Hf in H. destruct H.
Qed.

Lemma cleanup_calls_kind (w : world) (st : state) (e : event) :
  In e (cleanup_calls w st) -> is_cleanup e = true.
Proof.
  destruct (cleanup_calls_facts w st) as (_ & H & _).
  rewrite forallb_forall in H. apply H.
Qed.

Lemma first_audio_some (entries : list str) (f : str) :
  first_audio entries = Some f ->
  In f entries /\ startswith (py "audio") f = true.
Proof.
  induction entries as [|g entries IH]; cbn [first_audio]; [discriminate|].
  destruct (startswith (py "audio") g) eqn:E.
  - intros [= <-]. split; [left; reflexivity | exact E].
  - intros H. destruct (IH H) as [Hin Hs]. split; [right; exact Hin | exact Hs].
Qed.

Lemma existsb_str_eqb (p : str) (entries : list str) :
  existsb (str_eqb p) entries = true <-> In p entries.
Proof.
  rewrite existsb_exists. split.
  - intros (x & Hin & Hx). apply str_eqb_eq in Hx. subst x. exact Hin.
  - intros Hin. exists p. split; [exact Hin | apply str_eqb_eq; reflexivity].
Qed.

(** The uploads that an exit path of the [try] block has made. *)
Lemma try_exit_uploads (w : world) (body : AskRequest) (st : state)
      (r : result response) (p : str) (ok : bool) :
  try_exit w body st r ->
  In (CUpload p, ok) (trace st) ->
  p = chosen_path w
  /\ existsb (str_eqb (chosen_path w)) (run_files w) = true.
Proof.
  intros H Hin. inversion H; subst; clear H;
    try (cbn in Hin; intuition congruence).
  - poll_facts. rewrite Htr in Hin. apply in_app_or in Hin.
    destruct Hin as [Hin|Hin]; [cbn in Hin; intuition congruence|].
    pose proof (@poll_trace_no is_upload _ _ Hupl Hin). discriminate.
  - poll_facts. rewrite Htr in Hin. apply in_app_or in Hin.
    destruct Hin as [Hin|Hin]; [cbn in Hin; intuition congruence|].
    pose proof (@poll_trace_no is_upload _ _ Hupl Hin). discriminate.
  - poll_facts. unfold log in Hin. cbn [trace] in Hin. rewrite Htr in Hin.
    apply in_app_or in Hin. destruct Hin as [Hin|Hin];
      [|cbn in Hin; intuition congruence].
    apply in_app_or in Hin.
    destruct Hin as [Hin|Hin]; [cbn in Hin; intuition congruence|].
    pose proof (@poll_trace_no is_upload _ _ Hupl Hin). discriminate.
Qed.

(** X10.  Whatever is uploaded is a file that the downloader left in the
    directory: [audio.mp3] if it is there, else the first entry whose
    name starts with [audio]. *)
Theorem upload_is_a_downloaded_file (w : world) (body : AskRequest)
        (p : str) (ok : bool) :
  In (CUpload p, ok) (trace (fst (ask w body))) ->
  In p (run_files w)
  /\ (p = py "audio.mp3"
      \/ (~ In (py "audio.mp3") (run_files w)
          /\ first_audio (run_files w) = Some p
          /\ startswith (py "audio") p = true)).
Proof.
  intros Hin.
  destruct (ask_trace w body) as (st1 & r & _ & Hexit & _ & Htr & _).
  rewrite Htr in Hin. apply in_app_or in Hin. destruct Hin as [Hin|Hin].
  - destruct (@try_exit_uploads w body st1 r p ok Hexit Hin) as [-> Hx].
    split; [apply existsb_str_eqb, Hx|].
    unfold chosen_path in *.
    destruct (existsb (str_eqb (py "audio.mp3")) (run_files w)) eqn:E;
      [left; reflexivity|].
    destruct (first_audio (run_files w)) as [f|] eqn:Ef;
      [|rewrite E in Hx; discriminate].
    right. split; [|split; [reflexivity|]].
    + intros Hc. apply existsb_str_eqb in Hc. rewrite Hc in E. discriminate.
    + apply (@first_audio_some (run_files w) f Ef).
  - apply cleanup_calls_kind in Hin. discriminate.
Qed.

Lemma upload_is_a_downloaded_file_witness :
  In (py "audio.mp3.mp3") (run_files happy_world)
  /\ (py "audio.mp3.mp3" = py "audio.mp3"
      \/ (~ In (py "audio.mp3") (run_files happy_world)
          /\ first_audio (run_files happy_world) = Some (py "audio.mp3.mp3")
          /\ startswith (py "audio") (py "audio.mp3.mp3") = true)).
Proof.
  apply (@upload_is_a_downloaded_file happy_world sample_request
           (py "audio.mp3.mp3") true).
  vm_compute. right. right. left. reflexivity.
Defined.

(** *** The query *)

(** The queries that an exit path of the [try] block has made. *)
Lemma try_exit_queries (w : world) (body : AskRequest) (st : state)
      (r : result response) (uri : str) (ok : bool) :
  try_exit w body st r ->
  In (CGenerate uri, ok) (trace st) ->
  exists f',
    is_active f' = true /\ file_uri f' = uri
    /\ uploaded_file st = Some f'
    /\ ok = returns (generate_result w uri (prompt (topic body)))
    /\ r = oracle_answer w body f'.
Proof.
  intros H Hin. inversion H; subst; clear H;
    try (cbn in Hin; intuition congruence).
  - poll_facts. rewrite Htr in Hin. apply in_app_or in Hin.
    destruct Hin as [Hin|Hin]; [cbn in Hin; intuition congruence|].
    pose proof (@poll_trace_no is_generate _ _ Hgen Hin). discriminate.
  - poll_facts. rewrite Htr in Hin. apply in_app_or in Hin.
    destruct Hin as [Hin|Hin]; [cbn in Hin; intuition congruence|].
    pose proof (@poll_trace_no is_generate _ _ Hgen Hin). discriminate.
  - poll_facts. unfold log in *. cbn [trace uploaded_file] in *.
    rewrite Htr in Hin. apply in_app_or in Hin.
    destruct Hin as [Hin|Hin].
    + apply in_app_or in Hin.
      destruct Hin as [Hin|Hin]; [cbn in Hin; intuition congruence|].
      pose proof (@poll_trace_no is_generate _ _ Hgen Hin). discriminate.
    + destruct Hin as [Hin|[]]. injection Hin as <- <-.
      exists f'. destruct (Hres f' eq_refl) as [Hu _].
      splits; auto.
Qed.

(** X11.  The service is queried only about a handle that is ACTIVE: the
    one that [uploaded_file] holds when the [try] block is left, which is
    also the one the [finally] block asks to delete. *)
Theorem query_needs_an_active_handle (w : world) (body : AskRequest)
        (uri : str) (ok : bool) :
  In (CGenerate uri, ok) (trace (fst (ask w body))) ->
  exists f',
    is_active f' = true /\ file_uri f' = uri
    /\ uploaded_file (fst (try_body w body initial)) = Some f'
    /\ ok = returns (generate_result w uri (prompt (topic body)))
    /\ In (CDelete (file_name f'), returns (delete_result w (file_name f')))
          (trace (fst (ask w body))).
Proof.
  intros Hin.
  destruct (ask_trace w body) as (st1 & r & Ht & Hexit & _ & Htr & _).
  rewrite Ht, Htr in *. cbn [fst]. apply in_app_or in Hin.
  destruct Hin as [Hin|Hin];
    [|apply cleanup_calls_kind in Hin; discriminate].
  destruct (@try_exit_queries w body st1 r uri ok Hexit Hin)
    as (f' & Ha & Hu & Hf & Hok & _).
  exists f'. splits; auto.
  apply in_or_app. right. unfold cleanup_calls. rewrite Hf.
  apply in_or_app. right. left. reflexivity.
Qed.

Lemma query_needs_an_active_handle_witness :
  exists f',
    is_active f' = true /\ file_uri f' = py "https://remote/files/abc"
    /\ uploaded_file (fst (try_body happy_world sample_request initial))
       = Some f'
    /\ true = returns (generate_result happy_world
                         (py "https://remote/files/abc")
                         (prompt (topic sample_request)))
    /\ In (CDelete (file_name f'),
           returns (delete_result happy_world (file_name f')))
          (trace (fst (ask happy_world sample_request))).
Proof.
  apply (@query_needs_an_active_handle happy_world sample_request
           (py "https://remote/files/abc") true).
  vm_compute. do 9 right. left. reflexivity.
Defined.

(** *** The response *)




(** *** The order of the calls *)

Lemma in_phase_order_app (n m : nat) (t1 t2 : list event) :
  n <= m ->
  in_phase_order n t1 = true -> all_below m t1 = true ->
  in_phase_order m t2 = true ->
  in_phase_order n (t1 ++ t2) = true.
Proof.
  revert n. induction t1 as [|e t1 IH]; intros n Hnm H1 Hb H2.
  - destruct t2 as [|e t2]; [reflexivity|].
    cbn [app in_phase_order] in *. apply andb_true_iff in H2.
    destruct H2 as [Hm H2]. apply Nat.leb_le in Hm. rewrite H2.
    rewrite andb_true_r. apply Nat.leb_le. lia.
  - cbn [app in_phase_order all_below forallb] in *.
    apply andb_true_iff in H1. destruct H1 as [Hn H1].
    apply andb_true_iff in Hb. destruct Hb as [He Hb].
    rewrite Hn. cbn [andb]. apply Nat.leb_le in He.
    apply IH; assumption.
Qed.

Lemma poll_trace_phase (evs : list event) (b : bool) :
  poll_trace evs b ->
  in_phase_order 3 evs = true /\ all_below 3 evs = true.
Proof.
  induction 1 as [|name evs b H [IH1 IH2]|name]; cbn; auto.
Qed.

Lemma cleanup_calls_phase (w : world) (st : state) :
  in_phase_order 5 (cleanup_calls w st) = true.
Proof.
  unfold cleanup_calls.
  destruct (removal st), (uploaded_file st); reflexivity.
Qed.

Lemma all_below_weaken (n m : nat) (t : list event) :
  n <= m -> all_below n t = true -> all_below m t = true.
Proof.
  intros Hnm. unfold all_below. rewrite !forallb_forall.
  intros H e He. specialize (H e He). apply Nat.leb_le in H.
  apply Nat.leb_le. lia.
Qed.

Lemma all_below_app (m : nat) (a b : list event) :
  all_below m a = true -> all_below m b = true ->
  all_below m (a ++ b) = true.
Proof.
  unfold all_below. intros Ha Hb. rewrite forallb_app.
  apply andb_true_iff. split; assumption.
Qed.

(** The calls of an exit path of the [try] block. *)
Lemma try_exit_phase (w : world) (body : AskRequest) (st : state)
      (r : result response) :
  try_exit w body st r ->
  in_phase_order 0 (trace st) = true /\ all_below 4 (trace st) = true.
Proof.
  intros H. inversion H; subst; clear H; try (split; reflexivity).
  - poll_facts. destruct (poll_trace_phase Hpt) as [P1 P2].
    rewrite Htr. split.
    + apply (@in_phase_order_app 0 3);
        [lia | reflexivity | reflexivity | exact P1].
    + apply all_below_app; [reflexivity|].
      apply (@all_below_weaken 3 4); [lia | exact P2].
  - poll_facts. destruct (poll_trace_phase Hpt) as [P1 P2].
    rewrite Htr. split.
    + apply (@in_phase_order_app 0 3);
        [lia | reflexivity | reflexivity | exact P1].
    + apply all_below_app; [reflexivity|].
      apply (@all_below_weaken 3 4); [lia | exact P2].
  - poll_facts. destruct (poll_trace_phase Hpt) as [P1 P2].
    unfold log. cbn [trace]. rewrite Htr, <- app_assoc. split.
    + apply (@in_phase_order_app 0 3); [lia | reflexivity | reflexivity |].
      apply (@in_phase_order_app 3 3);
        [lia | exact P1 | exact P2 | reflexivity].
    + apply all_below_app; [reflexivity|].
      apply all_below_app; [|reflexivity].
      apply (@all_below_weaken 3 4); [lia | exact P2].
Qed.

(** X13.  On every path the calls of a request follow the steps of the
    handler and never go back: the directory is made first, then the
    download, the upload, the sleeps and fetches of the poll, the query,
    the removal of the audio file and the deletion of the handle. *)
Theorem calls_follow_the_steps (w : world) (body : AskRequest) :
  in_phase_order 0 (trace (fst (ask w body))) = true.
Proof.
  destruct (ask_trace w body) as (st1 & r & _ & Hexit & _ & Htr & _).
  rewrite Htr. destruct (try_exit_phase Hexit) as [H1 H2].
  apply (@in_phase_order_app 0 5);
    [lia | exact H1 | | apply cleanup_calls_phase].
  apply (@all_below_weaken 4 5); [lia | exact H2].
Qed.

End HandlerMore.
